(** * sbctl: the resource decoder and object utilities of [pkg/sbctl/compatibility.go]

    A shallow embedding of [Decode], [wrapListData], [ToUnstructured],
    [ToUnstructuredList] and [SortUnstructuredList], and of the shell
    command of [cli/shell.go] ([ShellCmd] and [startShellAndWait]).
    The Go packages the file imports are kept apart from the code of the
    package itself: each imported package is a module of its own that models
    the few functions the package calls, and what cannot be modelled
    (the Kubernetes universal deserializer, the JSON reader, the RFC 3339
    reader, [sort.Slice]) is a field of the record [Library]. *)

From stdpp Require Import gmap strings list fin_maps.
From Stdlib Require Import Ascii ZArith Sorted Permutation.

Set Warnings "-register-all".

(** ** Go values shared by the packages *)

(** A Go [[]byte] and a Go [string] are both byte sequences: both are a
    [string] here. *)

(** A decoded JSON value, the shape of Go's [interface{}] after
    [json.Unmarshal]: a JSON object is a [map[string]interface{}]. *)
Inductive json : Type :=
  | JNull
  | JBool (b : bool)
  | JNumber (raw : string)
  | JString (s : string)
  | JArray (elems : list json)
  | JObject (fields : gmap string json).

#[global] Instance json_inhabited : Inhabited json := populate JNull.

(** ** Package [github.com/pkg/errors] *)
Module errors.

(** A Go [error]; the nil error is [None] of [option error]. *)
Inductive error : Type :=
  | New (msg : string)
  | withMessage (cause : error) (msg : string).

Fixpoint Error (e : error) : string :=
  match e with
  | New msg => msg
  | withMessage cause msg => msg +:+ ": " +:+ Error cause
  end.

(** [errors.Errorf(format, args...)]: a new error of the formatted text. *)
Definition Errorf (text : string) : error := New text.

(** [errors.Wrap(err, message)]: "If err is nil, Wrap returns nil." *)
Definition Wrap (err : option error) (message : string) : option error :=
  match err with
  | None => None
  | Some cause => Some (withMessage cause message)
  end.

End errors.
Export errors (error).

(** ** Package [k8s.io/apimachinery/pkg/runtime/schema] *)
Module schema.

Record GroupVersion : Type := { gvGroup : string; gvVersion : string }.

Record GroupVersionKind : Type :=
  { Group : string; Version : string; Kind : string }.

(** [gvk.Empty()] *)
Definition Empty (gvk : GroupVersionKind) : bool :=
  bool_decide (Group gvk = "") && bool_decide (Version gvk = "")
  && bool_decide (Kind gvk = "").

(** [gvk.GroupVersion()] *)
Definition GroupVersionOf (gvk : GroupVersionKind) : GroupVersion :=
  {| gvGroup := Group gvk; gvVersion := Version gvk |}.

(** [gv.WithKind(kind)] *)
Definition WithKind (gv : GroupVersion) (kind : string) : GroupVersionKind :=
  {| Group := gvGroup gv; Version := gvVersion gv; Kind := kind |}.

(** [gv.String()]: "group/version", or the bare version of the core group. *)
Definition GroupVersionString (gv : GroupVersion) : string :=
  if bool_decide (gvGroup gv = "") then gvVersion gv
  else gvGroup gv +:+ "/" +:+ gvVersion gv.

(** [gvk.ToAPIVersionAndKind()] *)
Definition ToAPIVersionAndKind (gvk : GroupVersionKind) : string * string :=
  if Empty gvk then ("", "")
  else (GroupVersionString (GroupVersionOf gvk), Kind gvk).

(** [strings.Count(s, "/")] *)
Fixpoint count_slash (s : string) : nat :=
  match s with
  | EmptyString => 0
  | String c rest =>
      (if bool_decide (c = "/"%char) then 1 else 0) + count_slash rest
  end.

(** [s[:i], s[i+1:]] for [i := strings.Index(s, "/")] *)
Fixpoint cut_slash (s : string) : string * string :=
  match s with
  | EmptyString => ("", "")
  | String c rest =>
      if bool_decide (c = "/"%char) then ("", rest)
      else let '(l, r) := cut_slash rest in (String c l, r)
  end.

(** [schema.ParseGroupVersion(gv)] *)
Definition ParseGroupVersion (gv : string) : GroupVersion + error :=
  if bool_decide (gv = "") || bool_decide (gv = "/") then
    inl {| gvGroup := ""; gvVersion := "" |}
  else
    match count_slash gv with
    | 0 => inl {| gvGroup := ""; gvVersion := gv |}
    | 1 => let '(g, v) := cut_slash gv in inl {| gvGroup := g; gvVersion := v |}
    | _ => inr (errors.New ("unexpected GroupVersion string: " +:+ gv))
    end.

#[global] Instance GroupVersionKind_eq_dec : EqDecision GroupVersionKind.
Proof. solve_decision. Defined.

End schema.

(** ** Package [k8s.io/apimachinery/pkg/apis/meta/v1] *)
Module metav1.

(** [metav1.TypeMeta], the [kind]/[apiVersion] pair embedded in every
    typed API struct. *)
Record TypeMeta : Type := { Kind : string; APIVersion : string }.

(** [SetGroupVersionKind(gvk)] of a [TypeMeta] *)
Definition SetGroupVersionKind (gvk : schema.GroupVersionKind) (obj : TypeMeta)
  : TypeMeta :=
  let '(apiVersion, kind) := schema.ToAPIVersionAndKind gvk in
  {| Kind := kind; APIVersion := apiVersion |}.

(** [metav1.Time]: an instant, counted in nanoseconds from Go's zero time
    (January 1, year 1, 00:00:00 UTC). *)
Definition Time : Type := Z.

Definition zeroTime : Time := 0%Z.

(** [t.Before(&u)] on two non-nil times *)
Definition Before (t u : Time) : bool := (t <? u)%Z.

#[global] Instance TypeMeta_eq_dec : EqDecision TypeMeta.
Proof. solve_decision. Defined.

End metav1.

(** ** Package [k8s.io/apimachinery/pkg/apis/meta/v1/unstructured] *)
Module unstructured.

(** [Unstructured{Object map[string]interface{}}]; a nil map reads as the
    empty map. *)
Record Unstructured : Type := { Object : gmap string json }.

(** [UnstructuredList{Object, Items}] *)
Record UnstructuredList : Type :=
  { ListObject : gmap string json; Items : list Unstructured }.

(** [NestedFieldNoCopy(obj, fields...)]: found or not. *)
Fixpoint NestedFieldNoCopy (val : json) (fields : list string) : option json :=
  match fields with
  | [] => Some val
  | field :: rest =>
      match val with
      | JObject m =>
          match m !! field with
          | Some v => NestedFieldNoCopy v rest
          | None => None
          end
      | _ => None
      end
  end.

(** [getNestedString(obj, fields...)]: the empty string when the field is
    missing or is not a string. *)
Definition getNestedString (obj : gmap string json) (fields : list string)
  : string :=
  match NestedFieldNoCopy (JObject obj) fields with
  | Some (JString s) => s
  | _ => ""
  end.

Definition GetKind (u : Unstructured) : string :=
  getNestedString (Object u) ["kind"].
Definition GetAPIVersion (u : Unstructured) : string :=
  getNestedString (Object u) ["apiVersion"].
Definition GetNamespace (u : Unstructured) : string :=
  getNestedString (Object u) ["metadata"; "namespace"].
Definition GetName (u : Unstructured) : string :=
  getNestedString (Object u) ["metadata"; "name"].

(** [u.GroupVersionKind()]: the empty triple when the apiVersion does not
    parse. *)
Definition GroupVersionKind (u : Unstructured) : schema.GroupVersionKind :=
  match schema.ParseGroupVersion (GetAPIVersion u) with
  | inr _ => {| schema.Group := ""; schema.Version := ""; schema.Kind := "" |}
  | inl gv => schema.WithKind gv (GetKind u)
  end.

(** [u.GetCreationTimestamp()]: [metav1.Time.UnmarshalQueryParameter] of
    the string at [metadata.creationTimestamp]; [parse] is
    [time.Parse(time.RFC3339, _)].  An absent field, the text [null] and a
    text that does not parse all leave the zero time. *)
Definition GetCreationTimestamp (parse : string → option metav1.Time)
    (u : Unstructured) : metav1.Time :=
  let str := getNestedString (Object u) ["metadata"; "creationTimestamp"] in
  if bool_decide (str = "") then metav1.zeroTime
  else if bool_decide (str = "null") then metav1.zeroTime
  else match parse str with
       | Some pt => pt
       | None => metav1.zeroTime
       end.

(** [u.DeepCopyObject()]: a copy is the same value. *)
Definition DeepCopyObject (u : Unstructured) : Unstructured := u.

(** [list.SetAPIVersion(version)] and [list.SetKind(kind)] *)
Definition SetAPIVersion (version : string) (l : UnstructuredList)
  : UnstructuredList :=
  {| ListObject := <["apiVersion" := JString version]> (ListObject l);
     Items := Items l |}.
Definition SetKind (kind : string) (l : UnstructuredList) : UnstructuredList :=
  {| ListObject := <["kind" := JString kind]> (ListObject l);
     Items := Items l |}.

(** [list.SetGroupVersionKind(gvk)] *)
Definition SetGroupVersionKind (gvk : schema.GroupVersionKind)
    (l : UnstructuredList) : UnstructuredList :=
  SetKind (schema.Kind gvk)
    (SetAPIVersion (schema.GroupVersionString (schema.GroupVersionOf gvk)) l).

Definition ListGetKind (l : UnstructuredList) : string :=
  getNestedString (ListObject l) ["kind"].
Definition ListGetAPIVersion (l : UnstructuredList) : string :=
  getNestedString (ListObject l) ["apiVersion"].

(** [UnstructuredJSONScheme.Decode(data, nil, u)] behind
    [u.UnmarshalJSON(data)], on the value [data] reads as: the value must
    be a JSON object (or [null], which leaves a nil map), and
    "if len(gvk.Kind) == 0" the decode fails with a missing-kind error. *)
Definition UnmarshalJSON (val : json) : Unstructured + error :=
  match val with
  | JObject m =>
      let u := {| Object := m |} in
      if bool_decide (schema.Kind (GroupVersionKind u) = "") then
        inr (errors.New "Object 'Kind' is missing")
      else inl u
  | JNull => inr (errors.New "Object 'Kind' is missing")
  | _ =>
      inr (errors.New
             "json: cannot unmarshal into Go value of type map[string]interface {}")
  end.

(** [json.Unmarshal(data, &v)] for [var v Unstructured] *)
Definition Unmarshal (read : string → json + error) (data : string)
  : Unstructured + error :=
  match read data with
  | inr e => inr e
  | inl val => UnmarshalJSON val
  end.

(** Every element of a JSON array through [UnmarshalJSON]; the first
    failure is the error. *)
Fixpoint UnmarshalElems (vals : list json) : list Unstructured + error :=
  match vals with
  | [] => inl []
  | val :: rest =>
      match UnmarshalJSON val with
      | inr e => inr e
      | inl u =>
          match UnmarshalElems rest with
          | inr e => inr e
          | inl us => inl (u :: us)
          end
      end
  end.

(** [json.Unmarshal(data, &vList)] for [var vList []Unstructured]: [null]
    leaves the nil slice, an array is read element by element, anything
    else is an error. *)
Definition UnmarshalSlice (read : string → json + error) (data : string)
  : list Unstructured + error :=
  match read data with
  | inr e => inr e
  | inl JNull => inl []
  | inl (JArray vals) => UnmarshalElems vals
  | inl _ =>
      inr (errors.New
             "json: cannot unmarshal into Go value of type []unstructured.Unstructured")
  end.

End unstructured.

(** ** The typed API structs of [k8s.io/api/...] and
    [k8s.io/apiextensions-apiserver] *)
Module api.

(** A typed item ([corev1.Pod], [appsv1.Deployment], ...): the embedded
    [TypeMeta] and every other field (metadata, spec, status, data, ...)
    under its JSON name. *)
Record Resource : Type :=
  { TypeMeta : metav1.TypeMeta; Fields : gmap string json }.

(** A typed list ([corev1.PodList], ...): [TypeMeta], [ListMeta], [Items]. *)
Record ResourceList : Type :=
  { ListTypeMeta : metav1.TypeMeta;
    ListMeta : gmap string json;
    Items : list Resource }.

(** The Go list types the type switch of [Decode] names; every other list
    type of the scheme is an [OtherList]. *)
Inductive ListType : Type :=
  | corev1_EventList
  | corev1_PodList
  | corev1_LimitRangeList
  | corev1_ServiceList
  | corev1_NamespaceList
  | corev1_NodeList
  | corev1_PersistentVolumeList
  | corev1_PersistentVolumeClaimList
  | batchv1_JobList
  | batchv1beta1_CronJobList
  | appsv1_DeploymentList
  | appsv1_ReplicaSetList
  | appsv1_StatefulSetList
  | storagev1_StorageClassList
  | extensionsv1_CustomResourceDefinitionList
  | corev1_ConfigMapList
  | OtherList (goType : string).

#[global] Instance ListType_eq_dec : EqDecision ListType.
Proof. solve_decision. Defined.

End api.

(** ** Package [k8s.io/apimachinery/pkg/runtime] *)
Module runtime.

(** The dynamic type and value behind a [runtime.Object]; the nil
    interface is [None] of [option Object]. *)
Inductive Object : Type :=
  | Typed (goType : string) (o : api.Resource)
  | TypedList (goType : api.ListType) (l : api.ResourceList)
  | Unstructured (u : unstructured.Unstructured)
  | UnstructuredList (l : unstructured.UnstructuredList).

End runtime.

(** ** What the package calls and this development does not model *)

(** The three results of a [runtime.Decoder.Decode] call. *)
Definition decoded3 : Type :=
  option runtime.Object * option schema.GroupVersionKind * option error.

Record Library : Type :=
  { (** [scheme.Codecs.UniversalDeserializer().Decode(data, nil, nil)] *)
    UniversalDeserializer_Decode : string → decoded3;
    (** the reader of [encoding/json]: the value a text stands for *)
    json_read : string → json + error;
    (** [time.Parse(time.RFC3339, str)] *)
    time_Parse : string → option metav1.Time;
    (** [sort.Slice(items, less)], with [less] on the elements *)
    sort_Slice :
      (unstructured.Unstructured → unstructured.Unstructured → bool) →
      list unstructured.Unstructured → list unstructured.Unstructured }.

(** ** Package [sbctl]: [pkg/sbctl/compatibility.go] *)
Module sbctl.

(** *** Effects: library calls and log lines, in the order they happen *)

Inductive Event : Type :=
  | Call_decode (data : string)
  | Call_Unmarshal_Unstructured (data : string)
  | Call_Unmarshal_Slice (data : string)
  | Log_Warn (msg : string).

Definition Log (A : Type) : Type := list Event * A.

#[global] Instance Log_ret : MRet Log := λ A a, ([], a).
#[global] Instance Log_bind : MBind Log :=
  λ A B k m, let '(before, a) := m in
             let '(after, b) := k a in (before ++ after, b).

Definition emit (e : Event) : Log unit := ([e], tt).

(** [log.Warn(args...)] prints its operands as [fmt.Sprint] does: no
    space after a string operand. *)
Definition log_Warn (msg : string) : Log unit := emit (Log_Warn msg).

(** How a call of [Decode] ends: with its three results, or in a Go
    run-time panic. *)
Inductive Outcome : Type :=
  | Return (decoded : option runtime.Object)
           (gvk : option schema.GroupVersionKind) (err : option error)
  | Panic (msg : string).

(** *** [wrapListData] *)

Definition LF : string := String (ascii_of_nat 10) "".
Definition TAB : string := String (ascii_of_nat 9) "".
Definition DQ : string := String (ascii_of_nat 34) "".

(** The format string of [fmt.Sprintf] up to its third verb, with [kind]
    and [apiVersion] at the first two. *)
Definition envelopeHead (kind apiVersion : string) : string :=
  "{" +:+ LF +:+
  TAB +:+ TAB +:+ DQ +:+ "kind" +:+ DQ +:+ ": " +:+ DQ +:+ kind +:+ DQ +:+ "," +:+ LF +:+
  TAB +:+ TAB +:+ DQ +:+ "apiVersion" +:+ DQ +:+ ": " +:+ DQ +:+ apiVersion +:+ DQ +:+ "," +:+ LF +:+
  TAB +:+ TAB +:+ DQ +:+ "metadata" +:+ DQ +:+ ": {" +:+ LF +:+
  TAB +:+ TAB +:+ TAB +:+ DQ +:+ "resourceVersion" +:+ DQ +:+ ": " +:+ DQ +:+ "1" +:+ DQ +:+ LF +:+
  TAB +:+ TAB +:+ "}," +:+ LF +:+
  TAB +:+ TAB +:+ DQ +:+ "items" +:+ DQ +:+ ": ".

(** The format string after its third verb. *)
Definition envelopeTail : string := LF +:+ TAB +:+ "}".

(** [fmt.Sprintf(format, kind, apiVersion, data)] *)
Definition listEnvelope (kind apiVersion data : string) : string :=
  envelopeHead kind apiVersion +:+ data +:+ envelopeTail.

(** The [switch resource] of [wrapListData]: [kind] and [apiVersion], or
    the [default] case. *)
Definition listKindOf (resource : string) : option (string * string) :=
  if bool_decide (resource = "pods") then Some ("PodList", "v1")
  else if bool_decide (resource = "events") then Some ("EventList", "v1")
  else if bool_decide (resource = "cronjobs") then
    Some ("CronJobList", "batch/v1beta1")
  else if bool_decide (resource = "deployments") then
    Some ("DeploymentList", "apps/v1")
  else if bool_decide (resource = "ingress")
          || bool_decide (resource = "ingresses") then
    Some ("IngressList", "networking.k8s.io/v1")
  else if bool_decide (resource = "jobs") then Some ("JobList", "batch/v1")
  else if bool_decide (resource = "limitranges") then
    Some ("LimitRangeList", "v1")
  else if bool_decide (resource = "pvcs") then
    Some ("PersistentVolumeClaimList", "v1")
  else if bool_decide (resource = "replicasets") then
    Some ("ReplicaSetList", "apps/v1")
  else if bool_decide (resource = "services") then Some ("ServiceList", "v1")
  else if bool_decide (resource = "statefulsets") then
    Some ("StatefulSetList", "apps/v1")
  else if bool_decide (resource = "namespaces") then
    Some ("NamespaceList", "v1")
  else if bool_decide (resource = "nodes") then Some ("NodeList", "v1")
  else if bool_decide (resource = "persistentvolumes") then
    Some ("PersistentVolumeList", "v1")
  else if bool_decide (resource = "persistentvolumeclaims") then
    Some ("PersistentVolumeClaimList", "v1")
  else if bool_decide (resource = "storageclasses") then
    Some ("StorageClassList", "storage.k8s.io/v1")
  else if bool_decide (resource = "customresourcedefinitions") then
    Some ("CustomResourceDefinitionList", "apiextensions.k8s.io/v1")
  else None.

(** [wrapListData(resource, data)]: the bytes, or the error with nil
    bytes. *)
Definition wrapListData (resource data : string) : string + error :=
  match listKindOf resource with
  | None => inr (errors.Errorf ("don't know how to wrap " +:+ resource))
  | Some (kind, apiVersion) => inl (listEnvelope kind apiVersion data)
  end.

(** *** The type switch of [Decode] (lines 74-194) *)

(** [o.Items[i].GetObjectKind().SetGroupVersionKind(gvk)] *)
Definition setItemGVK (gvk : schema.GroupVersionKind) (item : api.Resource)
  : api.Resource :=
  {| api.TypeMeta := metav1.SetGroupVersionKind gvk (api.TypeMeta item);
     api.Fields := api.Fields item |}.

(** [for i := range o.Items { ... }] *)
Definition setItemsGVK (group kind version : string) (o : api.ResourceList)
  : api.ResourceList :=
  {| api.ListTypeMeta := api.ListTypeMeta o;
     api.ListMeta := api.ListMeta o;
     api.Items :=
       setItemGVK {| schema.Group := group; schema.Version := version;
                     schema.Kind := kind |} <$> api.Items o |}.

(** [switch o := decoded.(type)]; a [GroupVersionKind] literal without
    [Group] has the empty group. *)
Definition stampItems (decoded : runtime.Object) : runtime.Object :=
  match decoded with
  | runtime.TypedList t o =>
      runtime.TypedList t
        match t with
        | api.corev1_EventList => setItemsGVK "" "Event" "v1" o
        | api.corev1_PodList => setItemsGVK "" "Pod" "v1" o
        | api.corev1_LimitRangeList => setItemsGVK "" "LimitRange" "v1" o
        | api.corev1_ServiceList => setItemsGVK "" "Service" "v1" o
        | api.corev1_NamespaceList => setItemsGVK "" "Namespace" "v1" o
        | api.corev1_NodeList => setItemsGVK "" "Node" "v1" o
        | api.corev1_PersistentVolumeList =>
            setItemsGVK "" "PersistentVolume" "v1" o
        | api.corev1_PersistentVolumeClaimList =>
            setItemsGVK "" "PersistentVolumeClaim" "v1" o
        | api.batchv1_JobList => setItemsGVK "batch" "Job" "v1" o
        | api.batchv1beta1_CronJobList =>
            setItemsGVK "batch" "CronJob" "v1beta1" o
        | api.appsv1_DeploymentList => setItemsGVK "apps" "Deployment" "v1" o
        | api.appsv1_ReplicaSetList => setItemsGVK "apps" "ReplicaSet" "v1" o
        | api.appsv1_StatefulSetList =>
            setItemsGVK "apps" "StatefulSet" "v1" o
        | api.storagev1_StorageClassList =>
            setItemsGVK "storage.k8s.io" "StorageClass" "v1" o
        | api.extensionsv1_CustomResourceDefinitionList =>
            setItemsGVK "apiextensions.k8s.io" "CustomResourceDefinitionList"
              "v1" o
        | api.corev1_ConfigMapList => setItemsGVK "" "ConfigMap" "v1" o
        | api.OtherList _ => o
        end
  | _ => decoded
  end.

Section WithLibrary.

Variable L : Library.

(** [decode := scheme.Codecs.UniversalDeserializer().Decode] *)
Definition decode (data : string) : Log decoded3 :=
  emit (Call_decode data);; mret (UniversalDeserializer_Decode L data).

Definition json_Unmarshal_Unstructured (data : string)
  : Log (unstructured.Unstructured + error) :=
  emit (Call_Unmarshal_Unstructured data);;
  mret (unstructured.Unmarshal (json_read L) data).

Definition json_Unmarshal_Slice (data : string)
  : Log (list unstructured.Unstructured + error) :=
  emit (Call_Unmarshal_Slice data);;
  mret (unstructured.UnmarshalSlice (json_read L) data).

(** Lines 46-72: the body of [if decoded == nil]. *)
Definition decodeUnstructured (originalData : string) : Log Outcome :=
  r ← json_Unmarshal_Unstructured originalData;
  match r with
  | inl v =>
      let o := unstructured.DeepCopyObject v in
      let gvk := unstructured.GroupVersionKind o in
      mret (Return (Some (runtime.Unstructured o)) (Some gvk) None)
  | inr err =>
      log_Warn ("could not decode data into an unstructured object: "
                +:+ errors.Error err);;
      r ← json_Unmarshal_Slice originalData;
      match r with
      | inl vList =>
          if bool_decide (0 < length vList)%nat then
            match vList !! 0 with
            | None =>
                mret (Panic "index out of range [0] with length 0")
            | Some v0 =>
                let o := unstructured.DeepCopyObject v0 in
                let gvk := unstructured.GroupVersionKind o in
                let list :=
                  {| unstructured.ListObject := ∅;
                     unstructured.Items := [] |} in
                let list := unstructured.SetGroupVersionKind gvk list in
                let list :=
                  {| unstructured.ListObject :=
                       unstructured.ListObject list;
                     unstructured.Items :=
                       (unstructured.Items list ++ vList)%list |} in
                mret (Return (Some (runtime.UnstructuredList list))
                        (Some gvk) None)
            end
          else
            mret (Return None None
                    (errors.Wrap None
                       "could not decode data into a k8s object"))
      | inr err =>
          log_Warn
            ("could not decode data into an unstructured list object: "
             +:+ errors.Error err);;
          mret (Return None None
                  (errors.Wrap (Some err)
                     "could not decode data into a k8s object"))
      end
  end.

(** Lines 36-44: the data in a list envelope, decoded again; the
    result is the variables [decoded] and [gvk] after these lines. *)
Definition decodeWrapped (resource data : string)
    (decoded : option runtime.Object)
    (gvk : option schema.GroupVersionKind)
  : Log (option runtime.Object * option schema.GroupVersionKind) :=
  match wrapListData resource data with
  | inr err => log_Warn (errors.Error err);; mret (decoded, gvk)
  | inl data =>
      '(decoded, gvk, err) ← decode data;
      match err with
      | Some err =>
          log_Warn ("could not decode wrapped data: "
                    +:+ errors.Error err)
      | None => mret tt
      end;;
      mret (decoded, gvk)
  end.

(** [Decode(resource, data)] *)
Definition Decode (resource data : string) : Log Outcome :=
  let originalData := data in
  '(decoded, gvk, err) ← decode data;
  match err with
  | None => mret (Return decoded gvk None)
  | Some err =>
      log_Warn ("could not to decode data, will try adding list GVK"
                +:+ errors.Error err);;
      '(decoded, gvk) ← decodeWrapped resource data decoded gvk;
      match decoded with
      | None => decodeUnstructured originalData
      | Some decoded => mret (Return (Some (stampItems decoded)) gvk None)
      end
  end.

(** [SortUnstructuredList(list)]: [list.Items] sorted in place. *)
Definition SortUnstructuredList (list : unstructured.UnstructuredList)
  : unstructured.UnstructuredList :=
  {| unstructured.ListObject := unstructured.ListObject list;
     unstructured.Items :=
       sort_Slice L
         (λ i j,
            let iT := unstructured.GetCreationTimestamp (time_Parse L) i in
            let jT := unstructured.GetCreationTimestamp (time_Parse L) j in
            metav1.Before iT jT)
         (unstructured.Items list) |}.

End WithLibrary.

End sbctl.

(** ** A reference library

    One executable [Library], used to run [Decode] and
    [SortUnstructuredList] on concrete payloads.  It reads JSON only (no
    YAML, no [\u] escapes), knows the list kinds and item kinds named in
    [compatibility.go], reads RFC 3339 times of the form
    [YYYY-MM-DDTHH:MM:SSZ], and sorts as [insertionSort_func] of Go's
    [sort] package does, which is what [sort.Slice] runs on a slice of at
    most twelve elements.  The theorems on [Decode] hold for every
    [Library], not for this one only. *)
Module reference.

(** *** JSON text to tokens *)

Inductive token : Type :=
  | TLBrace | TRBrace | TLBracket | TRBracket | TColon | TComma
  | TString (s : string)
  | TNumber (raw : string)
  | TWord (w : string).

Inductive lexState : Type :=
  | LexIdle
  | LexString (acc : list ascii)
  | LexEscape (acc : list ascii)
  | LexNumber (acc : list ascii)
  | LexWord (acc : list ascii).

Definition text (acc : list ascii) : string :=
  String.string_of_list_ascii (rev acc).

Definition isSpace (c : ascii) : bool :=
  let n := nat_of_ascii c in
  bool_decide (n = 32) || bool_decide (n = 9) || bool_decide (n = 10)
  || bool_decide (n = 13).

Definition isDigit (c : ascii) : bool :=
  let n := nat_of_ascii c in bool_decide (48 ≤ n)%nat && bool_decide (n ≤ 57)%nat.

Definition isLetter (c : ascii) : bool :=
  let n := nat_of_ascii c in bool_decide (97 ≤ n)%nat && bool_decide (n ≤ 122)%nat.

Definition isNumberChar (c : ascii) : bool :=
  isDigit c || bool_decide (c = "-"%char) || bool_decide (c = "+"%char)
  || bool_decide (c = "."%char) || bool_decide (c = "e"%char)
  || bool_decide (c = "E"%char).

(** What a character starts when no token is open. *)
Definition startToken (c : ascii) : option (lexState * list token) :=
  if isSpace c then Some (LexIdle, [])
  else if bool_decide (c = "{"%char) then Some (LexIdle, [TLBrace])
  else if bool_decide (c = "}"%char) then Some (LexIdle, [TRBrace])
  else if bool_decide (c = "["%char) then Some (LexIdle, [TLBracket])
  else if bool_decide (c = "]"%char) then Some (LexIdle, [TRBracket])
  else if bool_decide (c = ":"%char) then Some (LexIdle, [TColon])
  else if bool_decide (c = ","%char) then Some (LexIdle, [TComma])
  else if bool_decide (nat_of_ascii c = 34) then Some (LexString [], [])
  else if isDigit c || bool_decide (c = "-"%char) then
    Some (LexNumber [c], [])
  else if isLetter c then Some (LexWord [c], [])
  else None.

(** The character an escape stands for. *)
Definition unescape (c : ascii) : option ascii :=
  if bool_decide (nat_of_ascii c = 34) then Some c
  else if bool_decide (c = "\"%char) then Some c
  else if bool_decide (c = "/"%char) then Some c
  else if bool_decide (c = "n"%char) then Some (ascii_of_nat 10)
  else if bool_decide (c = "t"%char) then Some (ascii_of_nat 9)
  else if bool_decide (c = "r"%char) then Some (ascii_of_nat 13)
  else if bool_decide (c = "b"%char) then Some (ascii_of_nat 8)
  else if bool_decide (c = "f"%char) then Some (ascii_of_nat 12)
  else None.

(** One character: the next state and the tokens read so far, last
    first. *)
Definition lexStep (st : lexState) (c : ascii) (out : list token)
  : option (lexState * list token) :=
  match st with
  | LexIdle =>
      match startToken c with
      | Some (st', toks) => Some (st', toks ++ out)
      | None => None
      end
  | LexString acc =>
      if bool_decide (nat_of_ascii c = 34) then
        Some (LexIdle, TString (text acc) :: out)
      else if bool_decide (c = "\"%char) then Some (LexEscape acc, out)
      else if bool_decide (nat_of_ascii c < 32) then None
      else Some (LexString (c :: acc), out)
  | LexEscape acc =>
      match unescape c with
      | Some c' => Some (LexString (c' :: acc), out)
      | None => None
      end
  | LexNumber acc =>
      if isNumberChar c then Some (LexNumber (c :: acc), out)
      else
        match startToken c with
        | Some (st', toks) => Some (st', toks ++ TNumber (text acc) :: out)
        | None => None
        end
  | LexWord acc =>
      if isLetter c then Some (LexWord (c :: acc), out)
      else
        match startToken c with
        | Some (st', toks) => Some (st', toks ++ TWord (text acc) :: out)
        | None => None
        end
  end.

Fixpoint lexRun (st : lexState) (s : string) (out : list token)
  : option (lexState * list token) :=
  match s with
  | EmptyString => Some (st, out)
  | String c rest =>
      match lexStep st c out with
      | Some (st', out') => lexRun st' rest out'
      | None => None
      end
  end.

(** The end of the text closes a number or a word; it may not fall
    inside a string. *)
Definition lexEnd (st : lexState) (out : list token) : option (list token) :=
  match st with
  | LexIdle => Some (rev out)
  | LexNumber acc => Some (rev (TNumber (text acc) :: out))
  | LexWord acc => Some (rev (TWord (text acc) :: out))
  | LexString _ | LexEscape _ => None
  end.

Definition lex (s : string) : option (list token) :=
  match lexRun LexIdle s [] with
  | Some (st, out) => lexEnd st out
  | None => None
  end.

(** The JSON number grammar: [-? digits (. digits)? ([eE] [+-]? digits)?];
    the stages are 0 start, 1 after the sign, 2 integer digits, 3 after
    the point, 4 fraction digits, 5 after the exponent letter, 6 after
    the exponent sign, 7 exponent digits. *)
Fixpoint numberFrom (stage : nat) (s : string) : bool :=
  match s with
  | EmptyString =>
      bool_decide (stage = 2) || bool_decide (stage = 4)
      || bool_decide (stage = 7)
  | String c rest =>
      match stage with
      | 0 => if bool_decide (c = "-"%char) then numberFrom 1 rest
             else isDigit c && numberFrom 2 rest
      | 1 => isDigit c && numberFrom 2 rest
      | 2 => if isDigit c then numberFrom 2 rest
             else if bool_decide (c = "."%char) then numberFrom 3 rest
             else (bool_decide (c = "e"%char) || bool_decide (c = "E"%char))
                  && numberFrom 5 rest
      | 3 => isDigit c && numberFrom 4 rest
      | 4 => if isDigit c then numberFrom 4 rest
             else (bool_decide (c = "e"%char) || bool_decide (c = "E"%char))
                  && numberFrom 5 rest
      | 5 => if bool_decide (c = "-"%char) || bool_decide (c = "+"%char)
             then numberFrom 6 rest
             else isDigit c && numberFrom 7 rest
      | 6 => isDigit c && numberFrom 7 rest
      | 7 => isDigit c && numberFrom 7 rest
      | _ => false
      end
  end.

(** *** Tokens to a JSON value *)

Definition scalar (t : token) : option json :=
  match t with
  | TString s => Some (JString s)
  | TNumber raw => if numberFrom 0 raw then Some (JNumber raw) else None
  | TWord w =>
      if bool_decide (w = "null") then Some JNull
      else if bool_decide (w = "true") then Some (JBool true)
      else if bool_decide (w = "false") then Some (JBool false)
      else None
  | _ => None
  end.

(** Recursive descent; a later duplicate of a key replaces the earlier
    one, as in a Go map. *)
Fixpoint parseValue (fuel : nat) (ts : list token)
  : option (json * list token) :=
  match fuel with
  | 0 => None
  | S fuel =>
      match ts with
      | [] => None
      | TLBracket :: TRBracket :: rest => Some (JArray [], rest)
      | TLBracket :: rest => parseElems fuel rest []
      | TLBrace :: TRBrace :: rest => Some (JObject ∅, rest)
      | TLBrace :: rest => parseMembers fuel rest ∅
      | t :: rest =>
          match scalar t with
          | Some v => Some (v, rest)
          | None => None
          end
      end
  end
with parseElems (fuel : nat) (ts : list token) (acc : list json)
  : option (json * list token) :=
  match fuel with
  | 0 => None
  | S fuel =>
      match parseValue fuel ts with
      | Some (v, TComma :: rest) => parseElems fuel rest (acc ++ [v])%list
      | Some (v, TRBracket :: rest) => Some (JArray (acc ++ [v])%list, rest)
      | _ => None
      end
  end
with parseMembers (fuel : nat) (ts : list token) (acc : gmap string json)
  : option (json * list token) :=
  match fuel with
  | 0 => None
  | S fuel =>
      match ts with
      | TString key :: TColon :: rest =>
          match parseValue fuel rest with
          | Some (v, TComma :: rest') =>
              parseMembers fuel rest' (<[key := v]> acc)
          | Some (v, TRBrace :: rest') =>
              Some (JObject (<[key := v]> acc), rest')
          | _ => None
          end
      | _ => None
      end
  end.

(** The reader: one JSON value and nothing after it. *)
Definition readJSON (data : string) : json + error :=
  match lex data with
  | None => inr (errors.New "invalid character in JSON input")
  | Some ts =>
      match parseValue (2 * length ts + 2) ts with
      | Some (v, []) => inl v
      | _ => inr (errors.New "unexpected end of JSON input")
      end
  end.

(** Apostrophes to double quotes: payloads are written with apostrophes
    in this file. *)
Fixpoint q (s : string) : string :=
  match s with
  | EmptyString => EmptyString
  | String c rest =>
      String (if bool_decide (c = "'"%char) then ascii_of_nat 34 else c)
        (q rest)
  end.

(** *** The typed decoder *)

(** The list kinds of the scheme that [compatibility.go] names:
    apiVersion, kind, Go type. *)
Definition schemeLists : list (string * string * api.ListType) :=
  [ ("v1", "EventList", api.corev1_EventList);
    ("v1", "PodList", api.corev1_PodList);
    ("v1", "LimitRangeList", api.corev1_LimitRangeList);
    ("v1", "ServiceList", api.corev1_ServiceList);
    ("v1", "NamespaceList", api.corev1_NamespaceList);
    ("v1", "NodeList", api.corev1_NodeList);
    ("v1", "PersistentVolumeList", api.corev1_PersistentVolumeList);
    ("v1", "PersistentVolumeClaimList",
     api.corev1_PersistentVolumeClaimList);
    ("batch/v1", "JobList", api.batchv1_JobList);
    ("batch/v1beta1", "CronJobList", api.batchv1beta1_CronJobList);
    ("apps/v1", "DeploymentList", api.appsv1_DeploymentList);
    ("apps/v1", "ReplicaSetList", api.appsv1_ReplicaSetList);
    ("apps/v1", "StatefulSetList", api.appsv1_StatefulSetList);
    ("storage.k8s.io/v1", "StorageClassList",
     api.storagev1_StorageClassList);
    ("apiextensions.k8s.io/v1", "CustomResourceDefinitionList",
     api.extensionsv1_CustomResourceDefinitionList);
    ("v1", "ConfigMapList", api.corev1_ConfigMapList);
    ("networking.k8s.io/v1", "IngressList",
     api.OtherList "networkingv1.IngressList");
    ("batch/v1", "CronJobList", api.OtherList "batchv1.CronJobList") ].

(** Their item kinds: apiVersion, kind, Go type. *)
Definition schemeItems : list (string * string * string) :=
  [ ("v1", "Event", "corev1.Event"); ("v1", "Pod", "corev1.Pod");
    ("v1", "LimitRange", "corev1.LimitRange");
    ("v1", "Service", "corev1.Service");
    ("v1", "Namespace", "corev1.Namespace"); ("v1", "Node", "corev1.Node");
    ("v1", "PersistentVolume", "corev1.PersistentVolume");
    ("v1", "PersistentVolumeClaim", "corev1.PersistentVolumeClaim");
    ("batch/v1", "Job", "batchv1.Job");
    ("batch/v1beta1", "CronJob", "batchv1beta1.CronJob");
    ("apps/v1", "Deployment", "appsv1.Deployment");
    ("apps/v1", "ReplicaSet", "appsv1.ReplicaSet");
    ("apps/v1", "StatefulSet", "appsv1.StatefulSet");
    ("storage.k8s.io/v1", "StorageClass", "storagev1.StorageClass");
    ("apiextensions.k8s.io/v1", "CustomResourceDefinition",
     "extensionsv1.CustomResourceDefinition");
    ("v1", "ConfigMap", "corev1.ConfigMap");
    ("networking.k8s.io/v1", "Ingress", "networkingv1.Ingress");
    ("batch/v1", "CronJob", "batchv1.CronJob") ].

Fixpoint lookupScheme {T : Type} (table : list (string * string * T))
    (apiVersion kind : string) : option T :=
  match table with
  | [] => None
  | (v, k, t) :: rest =>
      if bool_decide (v = apiVersion) && bool_decide (k = kind) then Some t
      else lookupScheme rest apiVersion kind
  end.

(** A typed struct filled from a JSON object: [kind] and [apiVersion] go
    to the embedded [TypeMeta], whatever the text gives for them. *)
Definition toResource (m : gmap string json) : api.Resource :=
  {| api.TypeMeta :=
       {| metav1.Kind := unstructured.getNestedString m ["kind"];
          metav1.APIVersion := unstructured.getNestedString m ["apiVersion"] |};
     api.Fields := delete "kind" (delete "apiVersion" m) |}.

Fixpoint toResources (vals : list json) : option (list api.Resource) :=
  match vals with
  | [] => Some []
  | JObject m :: rest => cons (toResource m) <$> toResources rest
  | _ :: _ => None
  end.

(** A string field of the envelope: absent is empty, a value of another
    type is an error. *)
Definition stringField (m : gmap string json) (field : string)
  : option string :=
  match m !! field with
  | None | Some JNull => Some ""
  | Some (JString s) => Some s
  | Some _ => None
  end.

(** [UniversalDeserializer().Decode(data, nil, nil)] on JSON text: find
    [apiVersion] and [kind], look the type up in the scheme, fill it. *)
Definition decode (data : string) : decoded3 :=
  match readJSON data with
  | inr e =>
      (None, None,
       Some (errors.withMessage e "couldn't get version/kind; json parse error"))
  | inl (JObject m) =>
      match stringField m "apiVersion", stringField m "kind" with
      | Some apiVersion, Some kind =>
          match schema.ParseGroupVersion apiVersion with
          | inr e => (None, None, Some e)
          | inl gv =>
              let actual := schema.WithKind gv kind in
              if bool_decide (kind = "") then
                (None, Some actual, Some (errors.New "Object 'Kind' is missing"))
              else if bool_decide (schema.gvVersion gv = "") then
                (None, Some actual,
                 Some (errors.New "Object 'apiVersion' is missing"))
              else
                match lookupScheme schemeLists apiVersion kind,
                      lookupScheme schemeItems apiVersion kind with
                | Some t, _ =>
                    let listMeta :=
                      match m !! "metadata" with
                      | Some (JObject lm) => lm
                      | _ => ∅
                      end in
                    let items :=
                      match m !! "items" with
                      | None | Some JNull => Some []
                      | Some (JArray vals) => toResources vals
                      | Some _ => None
                      end in
                    match items with
                    | Some items =>
                        (Some (runtime.TypedList t
                                 {| api.ListTypeMeta :=
                                      {| metav1.Kind := kind;
                                         metav1.APIVersion := apiVersion |};
                                    api.ListMeta := listMeta;
                                    api.Items := items |}),
                         Some actual, None)
                    | None =>
                        (None, Some actual,
                         Some (errors.New "json: cannot unmarshal items"))
                    end
                | None, Some goType =>
                    (Some (runtime.Typed goType (toResource m)),
                     Some actual, None)
                | None, None =>
                    (None, Some actual,
                     Some (errors.New
                             ("no kind " +:+ kind
                              +:+ " is registered for version " +:+ apiVersion)))
                end
          end
      | _, _ =>
          (None, None,
           Some (errors.New "couldn't get version/kind; json parse error"))
      end
  | inl _ =>
      (None, None,
       Some (errors.New "couldn't get version/kind; json parse error"))
  end.

(** *** RFC 3339 times, [YYYY-MM-DDTHH:MM:SSZ] *)

Definition digit (c : ascii) : option Z :=
  if isDigit c then Some (Z.of_nat (nat_of_ascii c) - 48)%Z else None.

(** The number a run of digits spells. *)
Fixpoint number (cs : list ascii) (acc : Z) : option Z :=
  match cs with
  | [] => Some acc
  | c :: rest =>
      match digit c with
      | Some d => number rest (10 * acc + d)%Z
      | None => None
      end
  end.

Definition isLeap (y : Z) : bool :=
  bool_decide (y mod 4 = 0)%Z
  && (bool_decide (y mod 100 ≠ 0)%Z || bool_decide (y mod 400 = 0)%Z).

Definition daysIn (y m : Z) : Z :=
  if bool_decide (m = 2)%Z then (if isLeap y then 29 else 28)%Z
  else if bool_decide (m = 4)%Z || bool_decide (m = 6)%Z
          || bool_decide (m = 9)%Z || bool_decide (m = 11)%Z then 30%Z
  else 31%Z.

(** Days from January 1, year 1 to the given date of the proleptic
    Gregorian calendar. *)
Definition daysSinceYear1 (y m d : Z) : Z :=
  let y' := (if bool_decide (m ≤ 2)%Z then y - 1 else y)%Z in
  let era := (y' / 400)%Z in
  let yoe := (y' - era * 400)%Z in
  let mp := (if bool_decide (2 < m)%Z then m - 3 else m + 9)%Z in
  let doy := ((153 * mp + 2) / 5 + d - 1)%Z in
  let doe := (yoe * 365 + yoe / 4 - yoe / 100 + doy)%Z in
  (era * 146097 + doe - 306)%Z.

Definition parseRFC3339 (str : string) : option metav1.Time :=
  match String.list_ascii_of_string str with
  | [y1; y2; y3; y4; d1; m1; m2; d2; a1; a2; t; h1; h2; c1; n1; n2; c2; s1; s2; z] =>
      if bool_decide (d1 = "-"%char) && bool_decide (d2 = "-"%char)
         && bool_decide (t = "T"%char) && bool_decide (c1 = ":"%char)
         && bool_decide (c2 = ":"%char) && bool_decide (z = "Z"%char)
      then
        match number [y1; y2; y3; y4] 0, number [m1; m2] 0, number [a1; a2] 0,
              number [h1; h2] 0, number [n1; n2] 0, number [s1; s2] 0 with
        | Some y, Some m, Some d, Some h, Some n, Some s =>
            if bool_decide (1 ≤ m ≤ 12)%Z && bool_decide (1 ≤ d ≤ daysIn y m)%Z
               && bool_decide (h < 24)%Z && bool_decide (n < 60)%Z
               && bool_decide (s < 60)%Z
            then
              Some ((daysSinceYear1 y m d * 86400 + h * 3600 + n * 60 + s)
                    * 1000000000)%Z
            else None
        | _, _, _, _, _, _ => None
        end
      else None
  | _ => None
  end.

(** *** [insertionSort_func] of Go's [sort] package

    [for i := a + 1; i < b; i++ { for j := i; j > a && less(j, j-1); j--
    { swap(j, j-1) } }]: the element at [i] sinks through the sorted
    prefix, which [sink] holds last element first. *)
Fixpoint sink {A : Type} (less : A → A → bool) (x : A) (before : list A)
  : list A :=
  match before with
  | [] => [x]
  | y :: rest => if less x y then y :: sink less x rest else x :: y :: rest
  end.

Definition insertionSort {A : Type} (less : A → A → bool) (data : list A)
  : list A :=
  rev (foldl (λ before x, sink less x before) [] data).

Definition lib : Library :=
  {| UniversalDeserializer_Decode := decode;
     json_read := readJSON;
     time_Parse := parseRFC3339;
     sort_Slice := insertionSort |}.

End reference.

(** ** Package [unstructured], continued: lists and their content *)
Module unstructured_lists.

(** [list.GroupVersionKind()]: read back from the list's own [apiVersion]
    and [kind]. *)
Definition GroupVersionKind (l : unstructured.UnstructuredList)
  : schema.GroupVersionKind :=
  match schema.ParseGroupVersion (unstructured.ListGetAPIVersion l) with
  | inr _ => {| schema.Group := ""; schema.Version := ""; schema.Kind := "" |}
  | inl gv => schema.WithKind gv (unstructured.ListGetKind l)
  end.

(** [obj.IsList()]: the object has an [items] field that is an array. *)
Definition IsList (obj : unstructured.Unstructured) : bool :=
  match unstructured.Object obj !! "items" with
  | Some (JArray _) => true
  | _ => false
  end.

(** The loop of [obj.EachListItem(fn)] for the [fn] of [ToList], which
    appends the item and returns no error: every member of [items] must be
    an object; the first that is not ends the loop with an error. *)
Fixpoint EachListItem (items : list json)
  : list unstructured.Unstructured + error :=
  match items with
  | [] => inl []
  | JObject child :: rest =>
      match EachListItem rest with
      | inl children => inl ({| unstructured.Object := child |} :: children)
      | inr err => inr err
      end
  | _ :: _ => inr (errors.New "items member is not an object")
  end.

(** [obj.ToList()]: an object that is not a list gives the empty list
    around the same content. *)
Definition ToList (obj : unstructured.Unstructured)
  : unstructured.UnstructuredList + error :=
  if IsList obj then
    match unstructured.Object obj !! "items" with
    | Some (JArray items) =>
        match EachListItem items with
        | inl children =>
            inl {| unstructured.ListObject := unstructured.Object obj;
                   unstructured.Items := children |}
        | inr err => inr err
        end
    | _ => inr (errors.New "content is not a list")
    end
  else
    inl {| unstructured.ListObject := unstructured.Object obj;
           unstructured.Items := [] |}.

(** [list.UnstructuredContent()]: the list's own fields and, at [items],
    the content of every item. *)
Definition UnstructuredContent (l : unstructured.UnstructuredList)
  : gmap string json :=
  <["items" :=
      JArray ((λ item, JObject (unstructured.Object item))
                <$> unstructured.Items l)]>
    (unstructured.ListObject l).

End unstructured_lists.

(** ** Package [sbctl], continued: [ToUnstructured] and [ToUnstructuredList]
    (lines 267-283) *)
Module sbctl_convert.

Section WithConverter.

(** [runtime.DefaultUnstructuredConverter.ToUnstructured(o)] *)
Variable DefaultUnstructuredConverter_ToUnstructured :
  runtime.Object → gmap string json + error.

(** [ToUnstructured(o)] *)
Definition ToUnstructured (o : runtime.Object)
  : unstructured.Unstructured + error :=
  match DefaultUnstructuredConverter_ToUnstructured o with
  | inr err => inr err
  | inl data => inl {| unstructured.Object := data |}
  end.

(** [ToUnstructuredList(o)] *)
Definition ToUnstructuredList (o : runtime.Object)
  : unstructured.UnstructuredList + error :=
  match ToUnstructured o with
  | inr err => inr err
  | inl obj => unstructured_lists.ToList obj
  end.

End WithConverter.

End sbctl_convert.

(** ** Package [cli]: [cli/shell.go] *)
Module cli.

(** *** Effects: a Go function body as a computation over its variables

    A computation reads and writes the variables [S] of the enclosing
    function, records every call it makes together with the variables as
    they stand during the call, and either goes on with a value or leaves
    the function: by a [return] or by a panic. *)

(** How a function ends. *)
Inductive Outcome : Type :=
  | Returns (err : option error)
  | Panics (err : error).

Definition M (S E A : Type) : Type := S → list (S * E) * S * (A + Outcome).

Definition ret {S E A : Type} (a : A) : M S E A := λ s, ([], s, inl a).

Definition bind {S E A B : Type} (m : M S E A) (k : A → M S E B) : M S E B :=
  λ s,
    let '(steps, s', r) := m s in
    match r with
    | inl a => let '(steps', s'', r') := k a s' in (steps ++ steps', s'', r')
    | inr out => (steps, s', inr out)
    end.

#[global] Instance M_ret {S E : Type} : MRet (M S E) := λ A, ret.
#[global] Instance M_bind {S E : Type} : MBind (M S E) := λ A B k m, bind m k.

(** A call, recorded with the variables during it. *)
Definition perform {S E : Type} (e : E) : M S E unit :=
  λ s, ([(s, e)], s, inl tt).

Definition get {S E : Type} : M S E S := λ s, ([], s, inl s).
Definition put {S E : Type} (s : S) : M S E unit := λ _, ([], s, inl tt).

(** [return err] *)
Definition return_ {S E A : Type} (err : option error) : M S E A :=
  λ s, ([], s, inr (Returns err)).

(** [panic(err)] *)
Definition panic {S E A : Type} (err : error) : M S E A :=
  λ s, ([], s, inr (Panics err)).

(** [defer d; rest]: [d] runs when the function ends, however [rest]
    ends. *)
Definition defer {S E A : Type} (d : M S E unit) (rest : M S E A) : M S E A :=
  λ s,
    let '(steps, s', r) := rest s in
    let '(steps', s'', _) := d s' in
    (steps ++ steps', s'', r).

(** The events of a run, the variables left out. *)
Definition events {S E : Type} (steps : list (S * E)) : list E := steps.*2.

(** *** What the command calls *)

(** [os.Stderr], or the log file. *)
Inductive LogOutput : Type :=
  | Stderr
  | LogFile (name : string).

(** The values [viper] has for the flags. *)
Record Flags : Type :=
  { support_bundle_location : string; token : string; cd_bundle : bool }.

Section WithSystem.

(** [sbctl.ClusterData] and its field [ClusterResourcesDir]. *)
Context {ClusterData : Type}.
Variable ClusterResourcesDir : ClusterData → string.

(** The results of the calls. *)
Record System : Type :=
  { (** [os.CreateTemp("", "sbctl-server-*.log")]: the file's name *)
    os_CreateTemp : string + error;
    (** [os.Stat(path)]: [fileInfo.IsDir()] *)
    os_Stat : string → bool + error;
    (** [os.MkdirTemp("", "sbctl-")] *)
    os_MkdirTemp : string + error;
    (** [sbctl.ExtractBundle(archive, dir)] *)
    sbctl_ExtractBundle : string → string → option error;
    (** [downloadAndExtractBundle(url, token)] *)
    downloadAndExtractBundle : string → string → string + error;
    (** [sbctl.FindClusterData(dir)] *)
    sbctl_FindClusterData : string → ClusterData + error;
    (** [api.StartAPIServer(clusterData, logOutput)] *)
    api_StartAPIServer : ClusterData → LogOutput → string * option error;
    (** [os.Getenv("SHELL")] *)
    os_Getenv_SHELL : string;
    (** [pty.Start(exec.Command(shellCmd))] *)
    pty_Start : string → option error;
    (** [term.MakeRaw(syscall.Stdin)] *)
    term_MakeRaw : option error;
    (** [shellExec.Wait()] *)
    shellExec_Wait : option error }.

(** The calls of the command and what it prints, one event each.  A
    goroutine is the event of its start ([GoInterruptHandler], [GoResize],
    [GoCopyStdin], [GoCopyStdout]); what it does later is not part of the
    run. *)
Inductive Event : Type :=
  | CreateTemp
  | Stdout (text : string)
  | SetLogOutput (name : string)
  | GoInterruptHandler
  | Stat (path : string)
  | MkdirTemp
  | ExtractBundle (archive dir : string)
  | DownloadAndExtractBundle (url token : string)
  | FindClusterData (dir : string)
  | StartAPIServer (clusterData : ClusterData) (logOutput : LogOutput)
  | RemoveAll (path : string)
  | CloseFile (name : string)
  | Getenv_SHELL
  | PtyStart (shellCmd : string)
  | NotifyResize
  | GoResize
  | SendResize
  | StopResize
  | MakeRaw
  | Term_Restore
  | WriteString (text : string)
  | CopyN_Discard (n : nat)
  | GoCopyStdin
  | GoCopyStdout
  | Wait.

Variable sys : System.

Definition LF : string := String (ascii_of_nat 10) "".

(** *** [startShellAndWait] *)

(** [startShellAndWait(cmds...)]; the function has no variables that a
    closure outside it reads. *)
Definition startShellAndWait (cmds : list string)
  : M unit Event (option error) :=
  perform Getenv_SHELL;;
  let shellCmd := os_Getenv_SHELL sys in
  if bool_decide (shellCmd = "") then
    return_ (Some (errors.New "SHELL environment is required for shell command"))
  else
    perform (PtyStart shellCmd);;
    match pty_Start sys shellCmd with
    | Some err => return_ (errors.Wrap (Some err) "failed to start shell")
    | None =>
        perform NotifyResize;;
        perform GoResize;;
        perform SendResize;;
        defer (perform StopResize)
          (perform MakeRaw;;
           match term_MakeRaw sys with
           | Some err => panic err
           | None =>
               defer (perform Term_Restore;; perform (Stdout ("sbctl shell exited" +:+ LF)))
                 (let setupCmd := String.concat LF cmds +:+ LF in
                  perform (WriteString setupCmd);;
                  perform (CopyN_Discard (2 * String.length setupCmd));;
                  perform GoCopyStdin;;
                  perform GoCopyStdout;;
                  perform Wait;;
                  return_ (shellExec_Wait sys))
           end)
    end.

(** The calls of [startShellAndWait(cmds...)] and how it ends. *)
Definition startShell (cmds : list string) : list Event * Outcome :=
  let '(steps, _, r) := startShellAndWait cmds tt in
  (events steps,
   match r with
   | inl err => Returns err
   | inr out => out
   end).

(** *** [ShellCmd]: the [RunE] of the command *)

(** The variables of [RunE] that the closure [cleanup] reads. *)
Record Vars : Type :=
  { kubeConfig : string; bundleDir : string; deleteBundleDir : bool }.

Definition set_kubeConfig (value : string) : M Vars Event unit :=
  vars ← get;
  put {| kubeConfig := value; bundleDir := bundleDir vars;
         deleteBundleDir := deleteBundleDir vars |}.

Definition set_bundleDir (value : string) : M Vars Event unit :=
  vars ← get;
  put {| kubeConfig := kubeConfig vars; bundleDir := value;
         deleteBundleDir := deleteBundleDir vars |}.

Definition set_deleteBundleDir (value : bool) : M Vars Event unit :=
  vars ← get;
  put {| kubeConfig := kubeConfig vars; bundleDir := bundleDir vars;
         deleteBundleDir := value |}.

(** The paths that [cleanup()] removes on given variables, in the order
    it removes them. *)
Definition cleanupPaths (vars : Vars) : list string :=
  (if bool_decide (kubeConfig vars ≠ "") then [kubeConfig vars] else [])
  ++ (if deleteBundleDir vars && bool_decide (bundleDir vars ≠ "")
      then [bundleDir vars] else []).

(** [cleanup()] where it is called in [RunE]. *)
Definition cleanup : M Vars Event unit :=
  vars ← get;
  (if bool_decide (kubeConfig vars ≠ "") then perform (RemoveAll (kubeConfig vars))
   else mret tt);;
  if deleteBundleDir vars && bool_decide (bundleDir vars ≠ "")
  then perform (RemoveAll (bundleDir vars))
  else mret tt.

(** A call of [startShellAndWait] inside [RunE]: its calls happen with the
    variables of [RunE] as they stand; its value is what it returns; its
    panic goes on through [RunE]. *)
Definition call_startShellAndWait (cmds : list string)
  : M Vars Event (option error) :=
  λ vars,
    let '(steps, _, r) := startShellAndWait cmds tt in
    ((λ step, (vars, step.2)) <$> steps, vars,
     match r with
     | inl err | inr (Returns err) => inl err
     | inr (Panics err) => inr (Panics err)
     end).

(** [bundleLocation] after lines 75-78: the positional argument, when there
    is a non-empty one, else the flag. *)
Definition bundleLocationOf (flags : Flags) (args : list string) : string :=
  match args with
  | arg :: _ =>
      if bool_decide (arg ≠ "") then arg else support_bundle_location flags
  | [] => support_bundle_location flags
  end.

(** Lines 83-117: the bundle directory from the location. *)
Definition locateBundle (flags : Flags) (bundleLocation : string)
  : M Vars Event unit :=
  if String.prefix "http" bundleLocation then
    let token := token flags in
    if bool_decide (token = "") then
      return_ (Some (errors.New "token is required when downloading bundle"))
    else
      perform (Stdout ("Downloading bundle" +:+ LF));;
      perform (DownloadAndExtractBundle bundleLocation token);;
      match downloadAndExtractBundle sys bundleLocation token with
      | inr err => return_ (errors.Wrap (Some err) "failed to stat input path")
      | inl dir =>
          perform (Stdout ("Bundle extracted to " +:+ dir +:+ LF));;
          set_bundleDir dir;;
          set_deleteBundleDir true
      end
  else
    perform (Stat bundleLocation);;
    match os_Stat sys bundleLocation with
    | inr err => return_ (errors.Wrap (Some err) "failed to stat input path")
    | inl isDir =>
        set_bundleDir bundleLocation;;
        if negb isDir then
          set_deleteBundleDir true;;
          perform MkdirTemp;;
          match os_MkdirTemp sys with
          | inr err =>
              set_bundleDir "";;
              return_ (errors.Wrap (Some err) "failed to create temp dir")
          | inl dir =>
              set_bundleDir dir;;
              perform (ExtractBundle bundleLocation dir);;
              match sbctl_ExtractBundle sys bundleLocation dir with
              | Some err =>
                  return_ (errors.Wrap (Some err) "failed to extract bundle")
              | None => mret tt
              end
          end
        else mret tt
    end.

(** Lines 119-145: the cluster data, the API server and the shell. *)
Definition serveBundle (flags : Flags) (logOutput : LogOutput)
  : M Vars Event (option error) :=
  vars ← get;
  perform (FindClusterData (bundleDir vars));;
  match sbctl_FindClusterData sys (bundleDir vars) with
  | inr err => return_ (errors.Wrap (Some err) "failed to find cluster data")
  | inl clusterData =>
      if bool_decide (ClusterResourcesDir clusterData = "") then
        perform (Stdout ("No cluster resources found in bundle" +:+ LF));;
        perform (Stdout ("Starting new shell in downloaded bundle. Press Ctl-D when done to exit from the shell" +:+ LF));;
        call_startShellAndWait ["cd " +:+ bundleDir vars]
      else
        perform (StartAPIServer clusterData logOutput);;
        let '(path, err) := api_StartAPIServer sys clusterData logOutput in
        set_kubeConfig path;;
        match err with
        | Some err => return_ (errors.Wrap (Some err) "failed to create api server")
        | None =>
            defer (perform (RemoveAll path))
              (let cmds := ["export KUBECONFIG=" +:+ path] in
               let cmds :=
                 if cd_bundle flags then cmds ++ ["cd " +:+ bundleDir vars]
                 else cmds in
               perform (Stdout ("Starting new shell with KUBECONFIG. Press Ctl-D when done to exit from the shell and stop sbctl server" +:+ LF));;
               call_startShellAndWait cmds)
        end
  end.

(** Lines 72-145: from the bundle location to the end of the shell. *)
Definition locateAndServe (flags : Flags) (args : list string)
    (logOutput : LogOutput) : M Vars Event (option error) :=
  let bundleLocation := bundleLocationOf flags args in
  if bool_decide (bundleLocation = "") then
    return_ (Some (errors.New "support-bundle-location is required"))
  else
    locateBundle flags bundleLocation;;
    serveBundle flags logOutput.

(** Lines 58-145, after the log file is set up. *)
Definition runWithLog (flags : Flags) (args : list string)
    (logOutput : LogOutput) : M Vars Event (option error) :=
  perform GoInterruptHandler;;
  defer cleanup (locateAndServe flags args logOutput).

(** [logOutput] after lines 39-47. *)
Definition logOutputOf : LogOutput :=
  match os_CreateTemp sys with
  | inl name => LogFile name
  | inr _ => Stderr
  end.

(** The calls of lines 40-47. *)
Definition logSetup : list Event :=
  match os_CreateTemp sys with
  | inl name =>
      [ CreateTemp;
        Stdout ("SBCTL logs will be written to " +:+ name +:+ LF);
        SetLogOutput name ]
  | inr _ => [ CreateTemp ]
  end.

(** The calls deferred in lines 42-43, in the order they run. *)
Definition logTeardown : list Event :=
  match os_CreateTemp sys with
  | inl name => [ RemoveAll name; CloseFile name ]
  | inr _ => []
  end.

(** The variables when [RunE] starts. *)
Definition initial : Vars :=
  {| kubeConfig := ""; bundleDir := ""; deleteBundleDir := false |}.

(** The [RunE] of [ShellCmd()]: its steps and how it ends. *)
Definition RunE (flags : Flags) (args : list string)
  : list (Vars * Event) * Outcome :=
  let body : M Vars Event (option error) :=
    perform CreateTemp;;
    match os_CreateTemp sys with
    | inl name =>
        defer (perform (CloseFile name))
          (defer (perform (RemoveAll name))
             (perform (Stdout ("SBCTL logs will be written to " +:+ name +:+ LF));;
              perform (SetLogOutput name);;
              runWithLog flags args (LogFile name)))
    | inr _ => runWithLog flags args Stderr
    end in
  let '(steps, _, r) := body initial in
  (steps,
   match r with
   | inl err => Returns err
   | inr out => out
   end).


End WithSystem.

End cli.

(** ** Spec-side vocabulary *)

(** The recognized resource hints of the specification, each with the list
    kind and the group/version it stands for. *)
Definition recognizedHints : list (string * (string * string)) :=
  [ ("pods", ("PodList", "v1"));
    ("events", ("EventList", "v1"));
    ("cronjobs", ("CronJobList", "batch/v1beta1"));
    ("deployments", ("DeploymentList", "apps/v1"));
    ("ingress", ("IngressList", "networking.k8s.io/v1"));
    ("ingresses", ("IngressList", "networking.k8s.io/v1"));
    ("jobs", ("JobList", "batch/v1"));
    ("limitranges", ("LimitRangeList", "v1"));
    ("pvcs", ("PersistentVolumeClaimList", "v1"));
    ("replicasets", ("ReplicaSetList", "apps/v1"));
    ("services", ("ServiceList", "v1"));
    ("statefulsets", ("StatefulSetList", "apps/v1"));
    ("namespaces", ("NamespaceList", "v1"));
    ("nodes", ("NodeList", "v1"));
    ("persistentvolumes", ("PersistentVolumeList", "v1"));
    ("persistentvolumeclaims", ("PersistentVolumeClaimList", "v1"));
    ("storageclasses", ("StorageClassList", "storage.k8s.io/v1"));
    ("customresourcedefinitions",
     ("CustomResourceDefinitionList", "apiextensions.k8s.io/v1")) ].

(** The JSON value of a list envelope: [kind], [apiVersion],
    [metadata.resourceVersion] and [items]. *)
Definition envelopeValue (kind apiVersion resourceVersion : string)
    (items : json) : json :=
  JObject
    (<["items" := items]>
       (<["metadata" :=
            JObject {["resourceVersion" := JString resourceVersion]}]>
          (<["apiVersion" := JString apiVersion]>
             {["kind" := JString kind]}))).

(** The library calls among the events of a run, the log lines left out. *)
Definition isCall (e : sbctl.Event) : bool :=
  match e with
  | sbctl.Log_Warn _ => false
  | _ => true
  end.

Definition calls (events : list sbctl.Event) : list sbctl.Event :=
  List.filter isCall events.

(** What one decoding strategy does on a payload: the library calls it
    makes, and its result (object and GVK) when it succeeds. *)
Definition Attempt : Type :=
  list sbctl.Event
  * option (option runtime.Object * option schema.GroupVersionKind).

(** Strategy 1: typed decoding of the raw bytes. *)
Definition typedStrategy (L : Library) (resource data : string) : Attempt :=
  ([sbctl.Call_decode data],
   match UniversalDeserializer_Decode L data with
   | (decoded, gvk, None) => Some (decoded, gvk)
   | (_, _, Some _) => None
   end).

(** Strategy 2: when the hint is recognized, typed decoding of the payload
    in a synthesized list envelope; the items of a decoded list are
    stamped. *)
Definition wrappedStrategy (L : Library) (resource data : string) : Attempt :=
  match sbctl.wrapListData resource data with
  | inr _ => ([], None)
  | inl wrapped =>
      ([sbctl.Call_decode wrapped],
       match UniversalDeserializer_Decode L wrapped with
       | (Some decoded, gvk, _) => Some (Some (sbctl.stampItems decoded), gvk)
       | (None, _, _) => None
       end)
  end.

(** Strategy 3: decoding as an untyped object. *)
Definition untypedObjectStrategy (L : Library) (resource data : string)
  : Attempt :=
  ([sbctl.Call_Unmarshal_Unstructured data],
   match unstructured.Unmarshal (json_read L) data with
   | inl v =>
       Some (Some (runtime.Unstructured v),
             Some (unstructured.GroupVersionKind v))
   | inr _ => None
   end).

(** Strategy 4: decoding as an untyped array; a non-empty array is wrapped
    into an untyped list that carries the first element's GVK. *)
Definition untypedArrayStrategy (L : Library) (resource data : string)
  : Attempt :=
  ([sbctl.Call_Unmarshal_Slice data],
   match unstructured.UnmarshalSlice (json_read L) data with
   | inl (v0 :: rest) =>
       let gvk := unstructured.GroupVersionKind v0 in
       Some (Some (runtime.UnstructuredList
                     (unstructured.SetGroupVersionKind gvk
                        {| unstructured.ListObject := ∅;
                           unstructured.Items := v0 :: rest |})),
             Some gvk)
   | _ => None
   end).

(** The engine of the cascade: the attempts in order up to the first that
    succeeds, and nothing of the ones after it. *)
Fixpoint firstSuccess (attempts : list Attempt) : Attempt :=
  match attempts with
  | [] => ([], None)
  | (made, Some result) :: _ => (made, Some result)
  | (made, None) :: rest =>
      let '(made', result) := firstSuccess rest in (made ++ made', result)
  end.

(** The contract of the typed decoder on one payload: a decode that
    fails leaves no object. *)
Definition failsClean (L : Library) (data : string) : Prop :=
  ∀ decoded gvk err,
    UniversalDeserializer_Decode L data = (decoded, gvk, Some err) →
    decoded = None.

(** Two objects that differ at most in the kind and apiVersion of the
    items of a typed list: the Go type, the list's own [TypeMeta] and
    [ListMeta] and every other field of every item are the same. *)
Definition sameButItemTypeMeta (a b : runtime.Object) : Prop :=
  match a, b with
  | runtime.TypedList t l, runtime.TypedList t' l' =>
      t = t'
      ∧ api.ListTypeMeta l = api.ListTypeMeta l'
      ∧ api.ListMeta l = api.ListMeta l'
      ∧ api.Fields <$> api.Items l = api.Fields <$> api.Items l'
  | _, _ => a = b
  end.

(** Sample payloads, with apostrophes for double quotes. *)
Definition podListJSON : string :=
  reference.q
    "{'kind':'PodList','apiVersion':'v1','items':[{'metadata':{'name':'web-0'}}]}".
Definition podArrayJSON : string :=
  reference.q "[{'metadata':{'name':'web-0'}}]".
Definition crdArrayJSON : string :=
  reference.q "[{'metadata':{'name':'widgets.example.com'}}]".
Definition widgetJSON : string :=
  reference.q
    "{'kind':'Widget','apiVersion':'example.com/v1','metadata':{'name':'w'}}".
Definition widgetArrayJSON : string :=
  reference.q "[{'kind':'Widget','apiVersion':'example.com/v1'}]".
Definition kindlessJSON : string :=
  reference.q "{'apiVersion':'example.com/v1'}".

Definition widgetsByTimeJSON : string :=
  reference.q
    "[{'kind':'Widget','apiVersion':'example.com/v1','metadata':{'name':'late','creationTimestamp':'2024-03-02T10:00:00Z'}},{'kind':'Widget','apiVersion':'example.com/v1','metadata':{'name':'early','creationTimestamp':'2024-03-01T10:00:00Z'}}]".

(** A reference converter for the untyped objects, where
    [DefaultUnstructuredConverter.ToUnstructured] gives the object's own
    content; the typed structs are left out. *)
Definition convertUnstructured (o : runtime.Object)
  : gmap string json + error :=
  match o with
  | runtime.Unstructured u => inl (unstructured.Object u)
  | runtime.UnstructuredList l => inl (unstructured_lists.UnstructuredContent l)
  | _ => inr (errors.New "typed structs are outside this converter")
  end.

(** A sample machine for the shell command: the cluster data is its
    [ClusterResourcesDir]; [bundle.tar.gz] is an archive, [bundle] a
    directory, and every bundle has cluster resources. *)
Definition sampleSystem : cli.System (ClusterData := string) :=
  {| cli.os_CreateTemp := inl "/tmp/sbctl-server-1.log";
     cli.os_Stat := λ path,
       if bool_decide (path = "bundle.tar.gz") then inl false
       else if bool_decide (path = "bundle") then inl true
       else inr (errors.New "no such file or directory");
     cli.os_MkdirTemp := inl "/tmp/sbctl-1";
     cli.sbctl_ExtractBundle := λ _ _, None;
     cli.downloadAndExtractBundle := λ _ _, inl "/tmp/sbctl-2";
     cli.sbctl_FindClusterData := λ dir, inl (dir +:+ "/cluster-resources");
     cli.api_StartAPIServer := λ _ _, ("/tmp/local-kubeconfig-1", None);
     cli.os_Getenv_SHELL := "/bin/sh";
     cli.pty_Start := λ _, None;
     cli.term_MakeRaw := None;
     cli.shellExec_Wait := None |}.

Definition sampleFlags : cli.Flags :=
  {| cli.support_bundle_location := ""; cli.token := "secret";
     cli.cd_bundle := true |}.

(** The run of the shell command on the sample machine. *)
Definition sampleRun (location : string)
  : list (cli.Vars * cli.Event) * cli.Outcome :=
  cli.RunE (λ clusterData, clusterData) sampleSystem sampleFlags [ location ].

(** What [sort.Slice] asks of [less]: "a transitive ordering", where also
    "if both Less(i, j) and Less(j, k) are false, then Less(i, k) must be
    false as well". *)
Record StrictWeakOrder {A : Type} (less : A → A → bool) : Prop :=
  { less_irreflexive : ∀ a, less a a = false;
    less_transitive :
      ∀ a b c, less a b = true → less b c = true → less a c = true;
    less_incomparable :
      ∀ a b c, less a b = false → less b c = false → less a c = false }.

(** What [sort.Slice] gives: the elements reordered, and in the order of
    [less] when [less] is such an ordering.  Nothing says where elements
    that [less] does not tell apart end up. *)
Definition reorders {A : Type} (sort : (A → A → bool) → list A → list A)
  : Prop :=
  ∀ less l, sort less l ≡ₚ l.

Definition sorts {A : Type} (sort : (A → A → bool) → list A → list A)
  : Prop :=
  ∀ less, StrictWeakOrder less →
          ∀ l, StronglySorted (λ a b, less b a = false) (sort less l).

(** The creation time of an item as [SortUnstructuredList] reads it. *)
Definition creationTime (L : Library) (u : unstructured.Unstructured)
  : metav1.Time :=
  unstructured.GetCreationTimestamp (time_Parse L) u.

(** Sample items: a pod with a namespace, a name and a creation
    timestamp, and one without the timestamp. *)
Definition podItem (namespace name creationTimestamp : string)
  : unstructured.Unstructured :=
  {| unstructured.Object :=
       <["kind" := JString "Pod"]>
         (<["apiVersion" := JString "v1"]>
            {["metadata" :=
                JObject
                  (<["namespace" := JString namespace]>
                     (<["name" := JString name]>
                        {["creationTimestamp" := JString creationTimestamp]}))]}) |}.

Definition podItemNoTime (namespace name : string)
  : unstructured.Unstructured :=
  {| unstructured.Object :=
       <["kind" := JString "Pod"]>
         (<["apiVersion" := JString "v1"]>
            {["metadata" :=
                JObject
                  (<["namespace" := JString namespace]>
                     {["name" := JString name]})]}) |}.

Definition listOf (items : list unstructured.Unstructured)
  : unstructured.UnstructuredList :=
  {| unstructured.ListObject := ∅; unstructured.Items := items |}.

(** [s] ends in [suffix]. *)
Definition endsIn (suffix s : string) : Prop := ∃ stem, s = stem +:+ suffix.

(** [kind] is the singular of [listKind]: [PodList] gives [Pod]. *)
Definition singularOf (listKind kind : string) : Prop :=
  listKind = kind +:+ "List".

(** ** Proof tools *)

Import reference.

(** Every library result a run of [Decode] looks at, by cases. *)
Ltac run_Decode :=
  unfold sbctl.Decode, sbctl.decodeWrapped, sbctl.decodeUnstructured,
    sbctl.decode, sbctl.json_Unmarshal_Unstructured,
    sbctl.json_Unmarshal_Slice, sbctl.log_Warn, sbctl.emit;
  repeat match goal with
    | |- context [UniversalDeserializer_Decode ?L ?d] =>
        destruct (UniversalDeserializer_Decode L d)
          as [ [ [ ? | ] ? ] [ ? | ] ] eqn:?
    | |- context [sbctl.wrapListData ?r ?d] =>
        destruct (sbctl.wrapListData r d) eqn:?
    | |- context [unstructured.Unmarshal ?r ?d] =>
        destruct (unstructured.Unmarshal r d) eqn:?
    | |- context [unstructured.UnmarshalSlice ?r ?d] =>
        destruct (unstructured.UnmarshalSlice r d) as [ [ | ? ? ] | ? ] eqn:?
    end;
  cbn [mbind mret sbctl.Log_bind sbctl.Log_ret fst snd app lookup list_lookup
       length errors.Wrap];
  rewrite ?bool_decide_eq_true_2 by (simpl; lia);
  rewrite ?bool_decide_eq_false_2 by (simpl; lia);
  cbn [mbind mret sbctl.Log_bind sbctl.Log_ret fst snd app].

(** A call that is not among the events of the run. *)
Ltac absurd_call H :=
  exfalso;
  repeat (apply elem_of_cons in H as [H | H]; [ discriminate H | ]);
  by apply elem_of_nil in H.

(** *** The shell command *)

(** One step of a run of the shell command. *)
Ltac cli_step :=
  cbv [cli.RunE cli.runWithLog cli.locateAndServe cli.initial
       cli.serveBundle cli.locateBundle
       cli.call_startShellAndWait cli.startShellAndWait cli.startShell
       cli.cleanup cli.set_kubeConfig cli.set_bundleDir
       cli.set_deleteBundleDir cli.defer cli.perform cli.get cli.put
       cli.return_ cli.panic cli.events mbind mret cli.M_bind cli.M_ret
       cli.bind cli.ret fst snd app fmap list_fmap errors.Wrap negb andb
       cli.kubeConfig cli.bundleDir cli.deleteBundleDir].

(** A run of the shell command, by the cases of what its calls return. *)
Ltac run_cli :=
  cli_step;
  repeat (match goal with
          | |- context [match ?x with _ => _ end] =>
              lazymatch x with
              | context [match _ with _ => _ end] => fail
              | _ => destruct x eqn:?
              end
          end;
          cli_step).

(** The cases of an event being in a list of events. *)
Ltac in_cases H :=
  repeat (apply elem_of_cons in H as [H | H];
          [ try discriminate H; try (injection H as ?); subst | ]);
  try (by apply elem_of_nil in H).

(** A call that is among the calls of a run. *)
Ltac find_event :=
  repeat first [ apply list_elem_of_here | apply list_elem_of_further ].

(** The cases of a run of lines 72-145 that is named in [Hrun]. *)
Ltac run_cases Hrun :=
  revert Hrun; run_cli; intros Hrun; injection Hrun as <- <- <-.

(** The conditions of the cases, as propositions. *)
Ltac decide_hyps :=
  repeat match goal with
         | H : bool_decide _ = true |- _ => apply bool_decide_eq_true in H
         | H : bool_decide _ = false |- _ => apply bool_decide_eq_false in H
         end.

(** Two results of the same call are the same. *)
Ltac same_call :=
  repeat match goal with
         | H1 : ?t = inl _, H2 : ?t = inl _ |- _ =>
             rewrite H1 in H2; injection H2 as ?; subst
         | H1 : ?t = inl _, H2 : ?t = inr _ |- _ =>
             rewrite H1 in H2; discriminate H2
         | H1 : ?t = inr _, H2 : ?t = inl _ |- _ =>
             rewrite H1 in H2; discriminate H2
         | H1 : ?t = (_, _), H2 : context [?t] |- _ =>
             rewrite H1 in H2; simpl in H2; subst
         | H1 : ?t = (_, _) |- context [?t] => rewrite H1; simpl
         end.


(** A call of lines 72-145 is none of the calls around them. *)
Ltac body_event Hin :=
  rewrite elem_of_app, elem_of_cons, !elem_of_app in Hin;
  destruct Hin as [Hin | [Hin | [Hin | [Hin | Hin]]]];
  [ exfalso; unfold cli.logSetup in Hin;
    destruct (cli.os_CreateTemp _); in_cases Hin
  | discriminate Hin
  |
  | exfalso; apply list_elem_of_fmap_1 in Hin as (? & Hin & _);
    discriminate Hin
  | exfalso; unfold cli.logTeardown in Hin;
    destruct (cli.os_CreateTemp _); in_cases Hin ].


(** A call is among the calls of a run that computes. *)
Ltac in_computed :=
  lazymatch goal with
  | |- ?x ∈ ?l => let l' := eval vm_compute in l in change (x ∈ l')
  end;
  find_event.

(** ** [wrapListData] *)

Lemma listKindOf_unrecognized (resource : string) :
  resource ∉ recognizedHints.*1 → sbctl.listKindOf resource = None.
Proof.
  intros Hnot. unfold sbctl.listKindOf.
  repeat match goal with
         | |- context [bool_decide (resource = ?h)] =>
             rewrite (bool_decide_eq_false_2 (resource = h));
             [ | intros ->; apply Hnot; vm_compute; set_solver ]
         end.
  reflexivity.
Qed.

Lemma listKindOf_recognized (resource kind apiVersion : string) :
  (resource, (kind, apiVersion)) ∈ recognizedHints →
  sbctl.listKindOf resource = Some (kind, apiVersion).
Proof.
  unfold recognizedHints. intros Hin.
  repeat (apply elem_of_cons in Hin as [Hin | Hin];
          [ injection Hin as -> -> ->; reflexivity | ]).
  by apply elem_of_nil in Hin.
Qed.

Lemma recognized_kind_endsIn_List (resource kind apiVersion : string) :
  (resource, (kind, apiVersion)) ∈ recognizedHints → endsIn "List" kind.
Proof.
  unfold recognizedHints. intros Hin.
  repeat (apply elem_of_cons in Hin as [Hin | Hin];
          [ injection Hin as -> -> ->;
            match goal with
            | |- endsIn _ ?k =>
                exists (String.substring 0 (String.length k - 4) k); reflexivity
            end | ]).
  by apply elem_of_nil in Hin.
Qed.

Lemma listKindOf_Some (resource kind apiVersion : string) :
  sbctl.listKindOf resource = Some (kind, apiVersion) →
  (resource, (kind, apiVersion)) ∈ recognizedHints.
Proof.
  destruct (decide (resource ∈ recognizedHints.*1)) as [Hin | Hnot].
  - unfold recognizedHints in Hin. cbn [fmap list_fmap fst] in Hin.
    repeat (apply elem_of_cons in Hin as [-> | Hin];
            [ intros [= <- <-]; by apply (bool_decide_unpack _) | ]).
    by apply elem_of_nil in Hin.
  - by rewrite (listKindOf_unrecognized _ Hnot).
Qed.

(** *** The envelope is JSON: the reference reader on [listEnvelope] *)

Lemma parseValue_nil (fuel : nat) : parseValue fuel [] = None.
Proof. by destruct fuel. Qed.

Lemma parseElems_nil (fuel : nat) (acc : list json) :
  parseElems fuel [] acc = None.
Proof. destruct fuel; simpl; [ done | ]. by rewrite parseValue_nil. Qed.

Lemma parseMembers_nil (fuel : nat) (acc : gmap string json) :
  parseMembers fuel [] acc = None.
Proof. by destruct fuel. Qed.

(** More fuel and more tokens after the value change nothing. *)
Lemma parse_extend (fuel : nat) :
  (∀ ts v r fuel' rest,
     parseValue fuel ts = Some (v, r) → (fuel ≤ fuel')%nat →
     parseValue fuel' (ts ++ rest) = Some (v, r ++ rest))
  ∧ (∀ ts acc v r fuel' rest,
       parseElems fuel ts acc = Some (v, r) → (fuel ≤ fuel')%nat →
       parseElems fuel' (ts ++ rest) acc = Some (v, r ++ rest))
  ∧ (∀ ts acc v r fuel' rest,
       parseMembers fuel ts acc = Some (v, r) → (fuel ≤ fuel')%nat →
       parseMembers fuel' (ts ++ rest) acc = Some (v, r ++ rest)).
Proof.
  induction fuel as [ | fuel (IHv & IHe & IHm) ]; [ done | ].
  split; [ | split ].
  - intros ts v r fuel' rest Hparse Hle.
    destruct fuel' as [ | fuel' ]; [ lia | ].
    destruct ts as [ | t [ | t2 ts2 ] ]; [ done | .. ];
      destruct t; try destruct t2; simpl in Hparse |- *;
      rewrite ?parseElems_nil, ?parseMembers_nil in Hparse;
      repeat case_match; simplify_eq; try done;
      first [ apply (IHe (_ :: _)) | apply (IHm (_ :: _)) ];
      first [ done | lia ].
  - intros ts acc v r fuel' rest Hparse Hle.
    destruct fuel' as [ | fuel' ]; [ lia | ].
    simpl in Hparse |- *.
    destruct (parseValue fuel ts) as [ [v0 r0] | ] eqn:Hv; [ | done ].
    rewrite (IHv _ _ _ fuel' rest Hv) by lia.
    destruct r0 as [ | [] r0 ]; simplify_eq; try done.
    simpl. apply IHe; [ done | lia ].
  - intros ts acc v r fuel' rest Hparse Hle.
    destruct fuel' as [ | fuel' ]; [ lia | ].
    destruct ts as [ | [] [ | [] ts ] ]; simpl in Hparse |- *; try done.
    destruct (parseValue fuel ts) as [ [v0 r0] | ] eqn:Hv; [ | done ].
    rewrite (IHv _ _ _ fuel' rest Hv) by lia.
    destruct r0 as [ | [] r0 ]; simplify_eq; try done.
    simpl. apply IHm; [ done | lia ].
Qed.


Lemma lexRun_app (s1 s2 : string) :
  ∀ st out,
    lexRun st (s1 +:+ s2) out
    = match lexRun st s1 out with
      | Some (st', out') => lexRun st' s2 out'
      | None => None
      end.
Proof.
  induction s1 as [ | c s1 IH ]; intros st out; [ done | ].
  change (String c s1 +:+ s2) with (String c (s1 +:+ s2)). simpl.
  destruct (lexStep st c out) as [ [st' out'] | ]; [ apply IH | done ].
Qed.

(** Tokens read before the text stay below the ones read in it. *)
Lemma lexStep_base (st : lexState) (c : ascii) (out base : list token) :
  lexStep st c (out ++ base)
  = (λ r, (r.1, r.2 ++ base)) <$> lexStep st c out.
Proof.
  destruct st; simpl; repeat case_match; simplify_eq; simpl.
  all: try done.
  all: try (by rewrite ?app_assoc).
  all: by rewrite <- app_assoc.
Qed.


Lemma lexRun_base (s : string) (base : list token) :
  ∀ st out,
    lexRun st s (out ++ base)
    = (λ r, (r.1, r.2 ++ base)) <$> lexRun st s out.
Proof.
  induction s as [ | c s IH ]; intros st out; [ done | ].
  simpl. rewrite lexStep_base.
  destruct (lexStep st c out) as [ [st' out'] | ]; [ apply IH | done ].
Qed.

(** A line feed after a text closes whatever token the text ends in. *)
Lemma lexStep_line_feed (st : lexState) (out : list token) (ts : list token) :
  lexEnd st out = Some ts →
  lexStep st (ascii_of_nat 10) out = Some (LexIdle, rev ts).
Proof.
  assert (Hstart : startToken (ascii_of_nat 10) = Some (LexIdle, []))
    by reflexivity.
  assert (Hnum : isNumberChar (ascii_of_nat 10) = false) by reflexivity.
  assert (Hletter : isLetter (ascii_of_nat 10) = false) by reflexivity.
  destruct st; intros Hend; cbn [lexEnd] in Hend; simplify_eq;
    cbn [lexStep]; rewrite ?Hnum, ?Hletter, ?Hstart, rev_involutive; done.
Qed.

(** The tokens of an envelope around a payload that has tokens [ts]. *)
Lemma lex_listEnvelope (resource kind apiVersion data : string)
    (ts : list token) :
  (resource, (kind, apiVersion)) ∈ recognizedHints →
  lex data = Some ts →
  lex (sbctl.listEnvelope kind apiVersion data)
  = Some ([ TLBrace; TString "kind"; TColon; TString kind; TComma;
            TString "apiVersion"; TColon; TString apiVersion; TComma;
            TString "metadata"; TColon; TLBrace;
            TString "resourceVersion"; TColon; TString "1"; TRBrace;
            TComma; TString "items"; TColon ] ++ ts ++ [TRBrace]).
Proof.
  intros Hin Hlex. unfold lex in Hlex.
  destruct (lexRun LexIdle data []) as [ [st out] | ] eqn:Hrun; [ | done ].
  set (head := [ TLBrace; TString "kind"; TColon; TString kind; TComma;
                 TString "apiVersion"; TColon; TString apiVersion; TComma;
                 TString "metadata"; TColon; TLBrace;
                 TString "resourceVersion"; TColon; TString "1"; TRBrace;
                 TComma; TString "items"; TColon ]).
  assert (Hhead : lexRun LexIdle (sbctl.envelopeHead kind apiVersion) []
                  = Some (LexIdle, rev head)).
  { unfold recognizedHints in Hin. subst head.
    repeat (apply elem_of_cons in Hin as [Hin | Hin];
            [ injection Hin as -> -> ->; vm_compute; reflexivity | ]).
    by apply elem_of_nil in Hin. }
  unfold lex, sbctl.listEnvelope, sbctl.envelopeTail.
  rewrite lexRun_app, Hhead, lexRun_app.
  pose proof (lexRun_base data (rev head) LexIdle []) as Hbase.
  change ([] ++ rev head) with (rev head) in Hbase. rewrite Hbase, Hrun.
  cbn [fmap option_fmap option_map fst snd].
  change (sbctl.LF +:+ sbctl.TAB +:+ "}")
    with (String (ascii_of_nat 10) (sbctl.TAB +:+ "}")).
  cbn [lexRun]. rewrite lexStep_base, (lexStep_line_feed _ _ _ Hlex).
  cbn [fmap option_fmap option_map fst snd].
  change (lexRun LexIdle (sbctl.TAB +:+ "}") (rev ts ++ rev head))
    with (Some (LexIdle, TRBrace :: rev ts ++ rev head)).
  cbn [lexEnd rev]. by rewrite rev_app_distr, !rev_involutive, <- app_assoc.
Qed.

(** The envelope around a JSON payload reads as a JSON object with the
    payload's value at [items]. *)
Lemma readJSON_listEnvelope (resource kind apiVersion data : string)
    (items : json) :
  (resource, (kind, apiVersion)) ∈ recognizedHints →
  readJSON data = inl items →
  readJSON (sbctl.listEnvelope kind apiVersion data)
  = inl (envelopeValue kind apiVersion "1" items).
Proof.
  intros Hin Hread. unfold readJSON in Hread.
  destruct (lex data) as [ts | ] eqn:Hlex; [ | done ].
  destruct (parseValue _ ts) as [ [v [ | ? ? ] ] | ] eqn:Hparse; simplify_eq.
  unfold readJSON. rewrite (lex_listEnvelope _ _ _ _ _ Hin Hlex).
  rewrite !length_app.
  replace (2 * (length
                  [ TLBrace; TString "kind"; TColon; TString kind; TComma;
                    TString "apiVersion"; TColon; TString apiVersion; TComma;
                    TString "metadata"; TColon; TLBrace;
                    TString "resourceVersion"; TColon; TString "1"; TRBrace;
                    TComma; TString "items"; TColon ]
                + (length ts + length [TRBrace])) + 2)
    with (8 + (2 * length ts + 34)) by (simpl; lia).
  pose proof (proj1 (parse_extend _) _ _ _ (3 + (2 * length ts + 34))
                [TRBrace] Hparse ltac:(lia)) as Hitems.
  simpl. simpl in Hitems. by rewrite Hitems.
Qed.

(** C6: for every recognized resource hint, [wrapListData] returns the list
    envelope whose kind is the hint's list kind (ending in List), whose
    apiVersion is the hint's group/version, whose metadata.resourceVersion
    is 1 and whose items are the payload as it stands: the text is the
    format string around the payload, and whenever the payload is JSON the
    envelope reads as the object with these four fields.  For every other
    hint it returns the error and no data. *)
Theorem wrapListData_envelope (resource data : string) :
  (∀ kind apiVersion,
     (resource, (kind, apiVersion)) ∈ recognizedHints →
     endsIn "List" kind
     ∧ sbctl.wrapListData resource data
       = inl (sbctl.listEnvelope kind apiVersion data)
     ∧ ∀ items,
         readJSON data = inl items →
         readJSON (sbctl.listEnvelope kind apiVersion data)
         = inl (envelopeValue kind apiVersion "1" items))
  ∧ (resource ∉ recognizedHints.*1 →
     sbctl.wrapListData resource data
     = inr (errors.Errorf ("don't know how to wrap " +:+ resource))).
Proof.
  split.
  - intros kind apiVersion Hin. split; [ | split ].
    + by eapply recognized_kind_endsIn_List.
    + unfold sbctl.wrapListData. by rewrite (listKindOf_recognized _ _ _ Hin).
    + intros items. by eapply readJSON_listEnvelope.
  - intros Hnot. unfold sbctl.wrapListData.
    by rewrite (listKindOf_unrecognized _ Hnot).
Qed.

Lemma wrapListData_envelope_witness :
  sbctl.wrapListData "pods" (q "[{'metadata':{'name':'web-0'}}]")
  = inl (sbctl.listEnvelope "PodList" "v1" (q "[{'metadata':{'name':'web-0'}}]"))
  ∧ readJSON
      (sbctl.listEnvelope "PodList" "v1" (q "[{'metadata':{'name':'web-0'}}]"))
    = inl (envelopeValue "PodList" "v1" "1"
             (JArray [JObject {["metadata" := JObject {["name" := JString "web-0"]}]}]))
  ∧ sbctl.wrapListData "widgets" (q "[{'metadata':{'name':'web-0'}}]")
    = inr (errors.New "don't know how to wrap widgets").
Proof.
  split; [ | split ].
  - apply (wrapListData_envelope "pods"). by apply (bool_decide_unpack _).
  - apply (wrapListData_envelope "pods" (q "[{'metadata':{'name':'web-0'}}]")).
    + by apply (bool_decide_unpack _).
    + vm_compute. reflexivity.
  - apply (wrapListData_envelope "widgets"). by apply (bool_decide_unpack _).
Defined.


(** ** The type switch *)

Lemma setItemGVK_idempotent (gvk : schema.GroupVersionKind)
    (item : api.Resource) :
  sbctl.setItemGVK gvk (sbctl.setItemGVK gvk item) = sbctl.setItemGVK gvk item.
Proof. reflexivity. Qed.

Lemma setItemsGVK_idempotent (group kind version : string)
    (o : api.ResourceList) :
  sbctl.setItemsGVK group kind version (sbctl.setItemsGVK group kind version o)
  = sbctl.setItemsGVK group kind version o.
Proof.
  unfold sbctl.setItemsGVK. cbn [api.ListTypeMeta api.ListMeta api.Items].
  f_equal. rewrite <- list_fmap_compose. by apply list_fmap_ext.
Qed.

(** C8: the stamping pass of [Decode] is idempotent: run twice on a
    decoded object it gives what one run gives, for every list type of the
    type switch (and for every other object, which it leaves alone). *)
Theorem stampItems_idempotent (decoded : runtime.Object) :
  sbctl.stampItems (sbctl.stampItems decoded) = sbctl.stampItems decoded.
Proof.
  destruct decoded as [ | t o | | ]; try reflexivity.
  destruct t; cbn [sbctl.stampItems]; by rewrite ?setItemsGVK_idempotent.
Qed.

Lemma setItemsGVK_frame (group kind version : string) (o : api.ResourceList) :
  api.ListTypeMeta (sbctl.setItemsGVK group kind version o) = api.ListTypeMeta o
  ∧ api.ListMeta (sbctl.setItemsGVK group kind version o) = api.ListMeta o
  ∧ api.Fields <$> api.Items (sbctl.setItemsGVK group kind version o)
    = api.Fields <$> api.Items o.
Proof.
  unfold sbctl.setItemsGVK. cbn [api.ListTypeMeta api.ListMeta api.Items].
  split_and!; [ done | done | ].
  rewrite <- list_fmap_compose. by apply list_fmap_ext.
Qed.

Lemma stampItems_frame (decoded : runtime.Object) :
  sameButItemTypeMeta decoded (sbctl.stampItems decoded).
Proof.
  destruct decoded as [ | t o | | ]; try reflexivity.
  destruct t; cbn [sbctl.stampItems sameButItemTypeMeta];
    (split; [ done | ]);
    first [ by destruct (setItemsGVK_frame "" "" "" o) | idtac ];
    match goal with
    | |- context [sbctl.setItemsGVK ?g ?k ?v o] =>
        destruct (setItemsGVK_frame g k v o) as (-> & -> & ->); done
    | _ => done
    end.
Qed.

(** What the switch stamps on the items of a list of each type. *)
Lemma stampItems_items (t : api.ListType) (o o' : api.ResourceList)
    (group kind version : string) :
  sbctl.stampItems (runtime.TypedList t o) = runtime.TypedList t o' →
  (t, (group, kind, version)) ∈
    [ (api.corev1_EventList, ("", "Event", "v1"));
      (api.corev1_PodList, ("", "Pod", "v1"));
      (api.corev1_LimitRangeList, ("", "LimitRange", "v1"));
      (api.corev1_ServiceList, ("", "Service", "v1"));
      (api.corev1_NamespaceList, ("", "Namespace", "v1"));
      (api.corev1_NodeList, ("", "Node", "v1"));
      (api.corev1_PersistentVolumeList, ("", "PersistentVolume", "v1"));
      (api.corev1_PersistentVolumeClaimList,
       ("", "PersistentVolumeClaim", "v1"));
      (api.batchv1_JobList, ("batch", "Job", "v1"));
      (api.batchv1beta1_CronJobList, ("batch", "CronJob", "v1beta1"));
      (api.appsv1_DeploymentList, ("apps", "Deployment", "v1"));
      (api.appsv1_ReplicaSetList, ("apps", "ReplicaSet", "v1"));
      (api.appsv1_StatefulSetList, ("apps", "StatefulSet", "v1"));
      (api.storagev1_StorageClassList,
       ("storage.k8s.io", "StorageClass", "v1"));
      (api.extensionsv1_CustomResourceDefinitionList,
       ("apiextensions.k8s.io", "CustomResourceDefinitionList", "v1"));
      (api.corev1_ConfigMapList, ("", "ConfigMap", "v1")) ] →
  Forall
    (λ item,
       metav1.Kind (api.TypeMeta item) = kind
       ∧ metav1.APIVersion (api.TypeMeta item)
         = schema.GroupVersionString
             {| schema.gvGroup := group; schema.gvVersion := version |})
    (api.Items o').
Proof.
  intros Hstamp Hin.
  repeat (apply elem_of_cons in Hin as [Hin | Hin];
          [ injection Hin as -> -> -> ->; cbn [sbctl.stampItems] in Hstamp;
            injection Hstamp as <-; apply Forall_fmap, Forall_true;
            intros item; by vm_compute | ]).
  by apply elem_of_nil in Hin.
Qed.

(** ** The untyped reader checks the kind *)

Lemma UnmarshalJSON_kind (val : json) (u : unstructured.Unstructured) :
  unstructured.UnmarshalJSON val = inl u →
  val = JObject (unstructured.Object u)
  ∧ schema.Kind (unstructured.GroupVersionKind u) = unstructured.GetKind u
  ∧ unstructured.GetKind u ≠ "".
Proof.
  destruct val as [ | | | | | m ]; try done. cbn [unstructured.UnmarshalJSON].
  case_bool_decide as Hkind; [ done | ]. intros [= <-].
  split; [ done | ]. revert Hkind. unfold unstructured.GroupVersionKind.
  destruct (schema.ParseGroupVersion _); simpl; [ | done ].
  intros Hkind. split; [ done | ]. exact Hkind.
Qed.

Lemma UnmarshalJSON_no_kind (m : gmap string json) :
  unstructured.getNestedString m ["kind"] = "" →
  ∃ err, unstructured.UnmarshalJSON (JObject m) = inr err.
Proof.
  intros Hkind. cbn [unstructured.UnmarshalJSON].
  rewrite bool_decide_eq_true_2; [ by eexists | ].
  unfold unstructured.GroupVersionKind, unstructured.GetKind.
  destruct (schema.ParseGroupVersion _); simpl; done.
Qed.

Lemma UnmarshalElems_kinds (vals : list json) :
  ∀ us, unstructured.UnmarshalElems vals = inl us →
        Forall (λ u, unstructured.GetKind u ≠ "") us.
Proof.
  induction vals as [ | val vals IH ]; intros us; simpl.
  - intros [= <-]. constructor.
  - destruct (unstructured.UnmarshalJSON val) as [u | ] eqn:Hval; [ | done ].
    destruct (unstructured.UnmarshalElems vals) as [us' | ]; [ | done ].
    intros [= <-]. constructor; [ | by apply IH ].
    by apply UnmarshalJSON_kind in Hval as (_ & _ & ?).
Qed.

Lemma UnmarshalSlice_kinds (read : string → json + error) (data : string)
    (us : list unstructured.Unstructured) :
  unstructured.UnmarshalSlice read data = inl us →
  Forall (λ u, unstructured.GetKind u ≠ "") us.
Proof.
  unfold unstructured.UnmarshalSlice.
  destruct (read data) as [ [ | | | | vals | ] | ]; try done.
  - intros [= <-]. constructor.
  - apply UnmarshalElems_kinds.
Qed.

(** ** [Decode] *)

Section DecodeFacts.

Variable L : Library.

Lemma Decode_never_panics (resource data msg : string) :
  (sbctl.Decode L resource data).2 ≠ sbctl.Panic msg.
Proof. run_Decode; done. Qed.

(** C1: [Decode] is the cascade of the four strategies in the order
    typed, list-wrapped typed, untyped object, untyped array: its library
    calls are those of the strategies up to the first that succeeds and
    of none after it, and it returns that strategy's result; when none
    succeeds it returns no object. *)
Theorem Decode_strategy_order (resource data : string) :
  failsClean L data →
  let attempt :=
    firstSuccess [ typedStrategy L resource data;
                   wrappedStrategy L resource data;
                   untypedObjectStrategy L resource data;
                   untypedArrayStrategy L resource data ] in
  calls (sbctl.Decode L resource data).1 = attempt.1
  ∧ match attempt.2 with
    | Some (decoded, gvk) =>
        (sbctl.Decode L resource data).2 = sbctl.Return decoded gvk None
    | None =>
        ∃ err, (sbctl.Decode L resource data).2 = sbctl.Return None None err
    end.
Proof.
  intros Hclean.
  unfold typedStrategy, wrappedStrategy, untypedObjectStrategy,
    untypedArrayStrategy.
  run_Decode;
    try match goal with
      | H : UniversalDeserializer_Decode L data = (Some _, _, Some _) |- _ =>
          by pose proof (Hclean _ _ _ H)
      end;
    simplify_eq; cbn; eauto.
Qed.

(** C7: in the third strategy the object read from the original bytes is
    returned only with a non-empty kind: an object [Decode] returns from
    it has one, and a JSON object whose kind is empty or absent is not
    returned, the call ends in an error. *)
Theorem Decode_untyped_object_kind (resource data : string) :
  sbctl.Call_Unmarshal_Unstructured data ∈ (sbctl.Decode L resource data).1 →
  (∀ u gvk err,
     (sbctl.Decode L resource data).2
     = sbctl.Return (Some (runtime.Unstructured u)) gvk err →
     json_read L data = inl (JObject (unstructured.Object u))
     ∧ unstructured.GetKind u ≠ ""
     ∧ gvk = Some (unstructured.GroupVersionKind u)
     ∧ schema.Kind (unstructured.GroupVersionKind u) = unstructured.GetKind u
     ∧ err = None)
  ∧ (∀ m,
       json_read L data = inl (JObject m) →
       unstructured.getNestedString m ["kind"] = "" →
       ∃ err, (sbctl.Decode L resource data).2
              = sbctl.Return None None (Some err)).
Proof.
  intros Hcall. split.
  - intros u gvk err. revert Hcall. run_Decode; intros Hcall Hret;
      simplify_eq; try (by absurd_call Hcall).
    all: match goal with
         | H : unstructured.Unmarshal _ _ = inl _ |- _ =>
             unfold unstructured.Unmarshal in H;
             destruct (json_read L data) as [val | ]; [ | done ];
             apply UnmarshalJSON_kind in H as (-> & ? & ?)
         end; done.
  - intros m Hread Hkind.
    destruct (UnmarshalJSON_no_kind m Hkind) as [e He].
    assert (Hobj : unstructured.Unmarshal (json_read L) data = inr e)
      by (unfold unstructured.Unmarshal; by rewrite Hread).
    assert (Harr : ∃ e', unstructured.UnmarshalSlice (json_read L) data = inr e')
      by (unfold unstructured.UnmarshalSlice; rewrite Hread; by eexists).
    destruct Harr as [e' Harr]. revert Hcall.
    unfold sbctl.Decode, sbctl.decodeWrapped, sbctl.decodeUnstructured,
      sbctl.decode, sbctl.json_Unmarshal_Unstructured,
      sbctl.json_Unmarshal_Slice, sbctl.log_Warn, sbctl.emit.
    rewrite Hobj, Harr. run_Decode; intros Hcall;
      try (by absurd_call Hcall); by eexists.
Qed.

(** When no strategy succeeds, the error comes from the array reader
    alone: it is nil when the array reader read an empty array. *)
Lemma Decode_all_fail (resource data : string) :
  failsClean L data →
  (firstSuccess [ typedStrategy L resource data;
                  wrappedStrategy L resource data;
                  untypedObjectStrategy L resource data;
                  untypedArrayStrategy L resource data ]).2 = None →
  (sbctl.Decode L resource data).2
  = sbctl.Return None None
      match unstructured.UnmarshalSlice (json_read L) data with
      | inr err =>
          Some (errors.withMessage err
                  "could not decode data into a k8s object")
      | inl _ => None
      end.
Proof.
  intros Hclean.
  unfold typedStrategy, wrappedStrategy, untypedObjectStrategy,
    untypedArrayStrategy.
  run_Decode;
    try match goal with
      | H : UniversalDeserializer_Decode L data = (Some _, _, Some _) |- _ =>
          by pose proof (Hclean _ _ _ H)
      end;
    simplify_eq; cbn; done.
Qed.

(** C10: the stamping pass is a frame over the items' type metadata: an
    object [Decode] returns from a typed decode is the decoder's object
    but for the kind and apiVersion of the items of a typed list (Go
    type, list envelope and every other field of every item are the
    decoder's), and the GVK returned with it is the decoder's. *)
Theorem Decode_stamping_frame (resource data : string)
    (o : runtime.Object) (gvk : option schema.GroupVersionKind)
    (err : option error) :
  sbctl.Call_Unmarshal_Unstructured data ∉ (sbctl.Decode L resource data).1 →
  (sbctl.Decode L resource data).2 = sbctl.Return (Some o) gvk err →
  ∃ bytes decoded err',
    sbctl.Call_decode bytes ∈ (sbctl.Decode L resource data).1
    ∧ UniversalDeserializer_Decode L bytes = (Some decoded, gvk, err')
    ∧ sameButItemTypeMeta decoded o
    ∧ err = None.
Proof.
  run_Decode; intros Hcall Hret; simplify_eq;
    try (exfalso; apply Hcall; set_unfold; tauto);
    match goal with
    | H : UniversalDeserializer_Decode L ?b = (Some ?d, _, _)
      |- context [sbctl.stampItems ?d] =>
        exists b, d; eexists;
        split_and!; [ set_unfold; tauto | exact H | apply stampItems_frame
                    | done ]
    | H : UniversalDeserializer_Decode L ?b = (Some ?d, _, _) |- _ =>
        exists b, d; eexists;
        split_and!; [ set_unfold; tauto | exact H
                    | by destruct d | done ]
    end.
Qed.

(** C5, as the code has it: the envelope the list-wrapping strategy hands
    to the typed decoder has a kind that ends in List; the list the
    untyped-array strategy returns carries the first element's kind and
    group/version as they stand, the kind non-empty and with no List
    added, and its items are the elements read, each with its own
    non-empty kind. *)
Theorem Decode_list_kind (resource data : string) :
  (∀ wrapped,
     sbctl.wrapListData resource data = inl wrapped →
     ∃ kind apiVersion,
       (resource, (kind, apiVersion)) ∈ recognizedHints
       ∧ wrapped = sbctl.listEnvelope kind apiVersion data
       ∧ endsIn "List" kind)
  ∧ (∀ l gvk err,
       sbctl.Call_Unmarshal_Slice data ∈ (sbctl.Decode L resource data).1 →
       (sbctl.Decode L resource data).2
       = sbctl.Return (Some (runtime.UnstructuredList l)) gvk err →
       ∃ v0 rest,
         unstructured.UnmarshalSlice (json_read L) data = inl (v0 :: rest)
         ∧ unstructured.Items l = v0 :: rest
         ∧ unstructured.ListGetKind l = unstructured.GetKind v0
         ∧ unstructured.ListGetKind l ≠ ""
         ∧ unstructured.ListGetAPIVersion l
           = schema.GroupVersionString
               (schema.GroupVersionOf (unstructured.GroupVersionKind v0))
         ∧ Forall (λ u, unstructured.GetKind u ≠ "") (unstructured.Items l)
         ∧ gvk = Some (unstructured.GroupVersionKind v0)
         ∧ err = None).
Proof.
  split.
  - intros wrapped. unfold sbctl.wrapListData.
    destruct (sbctl.listKindOf resource) as [ [kind apiVersion] | ] eqn:Hkind;
      [ | done ].
    intros [= <-]. apply listKindOf_Some in Hkind.
    exists kind, apiVersion. split_and!; [ done | done | ].
    by eapply recognized_kind_endsIn_List.
  - intros l gvk err. run_Decode; intros Hcall Hret; simplify_eq;
      try (by absurd_call Hcall).
    all: match goal with
         | H : unstructured.UnmarshalSlice _ _ = inl (?v :: ?r) |- _ =>
             exists v, r; pose proof (UnmarshalSlice_kinds _ _ _ H) as Hkinds
         end.
    all: pose proof Hkinds as Hfirst; apply Forall_cons in Hfirst as [Hfirst _].
    all: assert (schema.Kind (unstructured.GroupVersionKind u)
                 = unstructured.GetKind u) as Hgvk
           by (match goal with
               | H : unstructured.UnmarshalSlice _ _ = inl _ |- _ =>
                   unfold unstructured.UnmarshalSlice in H;
                   destruct (json_read L data) as [ [ | | | | vals | ] | ];
                   simplify_eq; destruct vals as [ | val vals ]; simplify_eq/=;
                   destruct (unstructured.UnmarshalJSON val) eqn:Hval;
                   simplify_eq/=;
                   destruct (unstructured.UnmarshalElems vals); simplify_eq/=;
                   by apply UnmarshalJSON_kind in Hval as (_ & ? & _)
               end).
    all: split_and!; try done.
    all: unfold unstructured.ListGetKind, unstructured.ListGetAPIVersion,
           unstructured.getNestedString, unstructured.SetGroupVersionKind,
           unstructured.SetKind, unstructured.SetAPIVersion,
           unstructured.DeepCopyObject;
         cbn [unstructured.ListObject unstructured.Items
              unstructured.NestedFieldNoCopy];
         simplify_map_eq; congruence.
Qed.

End DecodeFacts.

(** ** [Decode] on the reference library *)

Lemma Decode_strategy_order_witness :
  failsClean lib podArrayJSON
  ∧ calls (sbctl.Decode lib "pods" podArrayJSON).1
    = [ sbctl.Call_decode podArrayJSON;
        sbctl.Call_decode (sbctl.listEnvelope "PodList" "v1" podArrayJSON) ]
  ∧ ∃ l,
      (sbctl.Decode lib "pods" podArrayJSON).2
      = sbctl.Return (Some (runtime.TypedList api.corev1_PodList l))
          (Some {| schema.Group := ""; schema.Version := "v1";
                   schema.Kind := "PodList" |})
          None.
Proof.
  assert (Hclean : failsClean lib podArrayJSON).
  { intros decoded gvk err Hdecode. vm_compute in Hdecode. congruence. }
  split; [ exact Hclean | ].
  pose proof (Decode_strategy_order lib "pods" podArrayJSON Hclean) as Horder.
  vm_compute in Horder. destruct Horder as [Hcalls Hret].
  split; [ exact Hcalls | ]. eexists. exact Hret.
Defined.

(** C2 fails on the code: a PodList that the typed decoder reads from the
    raw bytes is returned by the early [return] of line 32, before the
    type switch, so its items keep the empty kind and apiVersion the
    decoder left; the claim has them stamped Pod, v1. *)
Theorem Decode_direct_list_items_unstamped :
  ∃ l,
    (sbctl.Decode lib "pods" podListJSON).2
    = sbctl.Return (Some (runtime.TypedList api.corev1_PodList l))
        (Some {| schema.Group := ""; schema.Version := "v1";
                 schema.Kind := "PodList" |})
        None
    ∧ api.ListTypeMeta l = {| metav1.Kind := "PodList"; metav1.APIVersion := "v1" |}
    ∧ api.TypeMeta <$> api.Items l
      = [ {| metav1.Kind := ""; metav1.APIVersion := "" |} ].
Proof. eexists. split_and!; vm_compute; reflexivity. Qed.

(** The same pods as a bare array: the list-wrapping strategy reaches the
    type switch and the items are stamped. *)
Lemma Decode_wrapped_list_items_stamped :
  ∃ l,
    (sbctl.Decode lib "pods" podArrayJSON).2
    = sbctl.Return (Some (runtime.TypedList api.corev1_PodList l))
        (Some {| schema.Group := ""; schema.Version := "v1";
                 schema.Kind := "PodList" |})
        None
    ∧ api.ListTypeMeta l = {| metav1.Kind := "PodList"; metav1.APIVersion := "v1" |}
    ∧ api.TypeMeta <$> api.Items l
      = [ {| metav1.Kind := "Pod"; metav1.APIVersion := "v1" |} ].
Proof. eexists. split_and!; vm_compute; reflexivity. Qed.

(** The case of [CustomResourceDefinitionList] stamps the list's own kind
    on the items, not its singular. *)
Lemma Decode_crd_items_stamped_with_list_kind :
  ∃ l,
    (sbctl.Decode lib "customresourcedefinitions" crdArrayJSON).2
    = sbctl.Return
        (Some (runtime.TypedList api.extensionsv1_CustomResourceDefinitionList l))
        (Some {| schema.Group := "apiextensions.k8s.io"; schema.Version := "v1";
                 schema.Kind := "CustomResourceDefinitionList" |})
        None
    ∧ api.TypeMeta <$> api.Items l
      = [ {| metav1.Kind := "CustomResourceDefinitionList";
             metav1.APIVersion := "apiextensions.k8s.io/v1" |} ].
Proof. eexists. split_and!; vm_compute; reflexivity. Qed.

(** C4 fails on the code: on an empty JSON array with an unrecognized
    hint every strategy fails, the array reader without an error, and
    [errors.Wrap] of the nil error is nil: [Decode] returns nil, nil,
    nil where the claim has a non-nil error. *)
Theorem Decode_empty_array_returns_nothing :
  (firstSuccess [ typedStrategy lib "widgets" "[]";
                  wrappedStrategy lib "widgets" "[]";
                  untypedObjectStrategy lib "widgets" "[]";
                  untypedArrayStrategy lib "widgets" "[]" ]).2 = None
  ∧ (sbctl.Decode lib "widgets" "[]").2 = sbctl.Return None None None.
Proof. split; vm_compute; reflexivity. Qed.

(** C9: [Decode] never panics, whatever the library returns; but it does
    not always return an object or an error: on the JSON text null with
    an unrecognized hint it returns neither. *)
Theorem Decode_returns_neither_object_nor_error :
  (∀ L resource data msg, (sbctl.Decode L resource data).2 ≠ sbctl.Panic msg)
  ∧ (sbctl.Decode lib "widgets" "null").2 = sbctl.Return None None None.
Proof. split; [ apply Decode_never_panics | vm_compute; reflexivity ]. Qed.

Lemma Decode_untyped_object_kind_witness :
  sbctl.Call_Unmarshal_Unstructured widgetJSON
    ∈ (sbctl.Decode lib "widgets" widgetJSON).1
  ∧ (∃ u,
       (sbctl.Decode lib "widgets" widgetJSON).2
       = sbctl.Return (Some (runtime.Unstructured u))
           (Some {| schema.Group := "example.com"; schema.Version := "v1";
                    schema.Kind := "Widget" |})
           None
       ∧ unstructured.GetKind u ≠ "")
  ∧ sbctl.Call_Unmarshal_Unstructured kindlessJSON
      ∈ (sbctl.Decode lib "widgets" kindlessJSON).1
  ∧ ∃ err,
      (sbctl.Decode lib "widgets" kindlessJSON).2
      = sbctl.Return None None (Some err).
Proof.
  assert (Hcall : sbctl.Call_Unmarshal_Unstructured widgetJSON
                    ∈ (sbctl.Decode lib "widgets" widgetJSON).1)
    by (vm_compute; repeat first [ apply list_elem_of_here | apply list_elem_of_further ]).
  assert (Hcall' : sbctl.Call_Unmarshal_Unstructured kindlessJSON
                     ∈ (sbctl.Decode lib "widgets" kindlessJSON).1)
    by (vm_compute; repeat first [ apply list_elem_of_here | apply list_elem_of_further ]).
  split; [ exact Hcall | ]. split.
  - eexists. split; [ vm_compute; reflexivity | ].
    eapply (proj1 (Decode_untyped_object_kind lib "widgets" widgetJSON Hcall)).
    vm_compute. reflexivity.
  - split; [ exact Hcall' | ].
    eapply (proj2 (Decode_untyped_object_kind lib "widgets" kindlessJSON Hcall')).
    + vm_compute. reflexivity.
    + vm_compute. reflexivity.
Defined.

Lemma Decode_stamping_frame_witness :
  (sbctl.Call_Unmarshal_Unstructured podArrayJSON
     ∉ (sbctl.Decode lib "pods" podArrayJSON).1)
  ∧ ∃ o gvk,
      (sbctl.Decode lib "pods" podArrayJSON).2 = sbctl.Return (Some o) gvk None
      ∧ ∃ bytes decoded err',
          sbctl.Call_decode bytes ∈ (sbctl.Decode lib "pods" podArrayJSON).1
          ∧ UniversalDeserializer_Decode lib bytes = (Some decoded, gvk, err')
          ∧ sameButItemTypeMeta decoded o
          ∧ (None : option error) = None.
Proof.
  assert (Hcall : sbctl.Call_Unmarshal_Unstructured podArrayJSON
                    ∉ (sbctl.Decode lib "pods" podArrayJSON).1).
  { intros Hin. vm_compute in Hin. absurd_call Hin. }
  split; [ exact Hcall | ]. eexists _, _. split; [ vm_compute; reflexivity | ].
  apply (Decode_stamping_frame lib "pods" podArrayJSON _ _ None Hcall).
  vm_compute. reflexivity.
Defined.

(** C5, as stated, fails: the list the untyped-array strategy returns for
    an array of one Widget has the kind Widget, which does not end in
    List. *)
Lemma Decode_untyped_array_list_kind_not_List :
  ¬ (∀ (L : Library) (resource data : string) l gvk err,
       (sbctl.Decode L resource data).2
       = sbctl.Return (Some (runtime.UnstructuredList l)) gvk err →
       endsIn "List" (unstructured.ListGetKind l)).
Proof.
  intros Hclaim.
  assert (∃ l, (sbctl.Decode lib "widgets" widgetArrayJSON).2
               = sbctl.Return (Some (runtime.UnstructuredList l))
                   (Some {| schema.Group := "example.com";
                            schema.Version := "v1"; schema.Kind := "Widget" |})
                   None
               ∧ unstructured.ListGetKind l = "Widget") as (l & Hret & Hkind)
    by (eexists; split; vm_compute; reflexivity).
  apply Hclaim in Hret. rewrite Hkind in Hret. destruct Hret as [stem Hstem].
  do 7 (destruct stem as [ | ? stem ]; [ discriminate Hstem | ];
        try (injection Hstem as <- Hstem)).
  all: try discriminate Hstem.
Qed.

Lemma Decode_list_kind_witness :
  sbctl.Call_Unmarshal_Slice widgetArrayJSON
    ∈ (sbctl.Decode lib "widgets" widgetArrayJSON).1
  ∧ ∃ l v0,
      (sbctl.Decode lib "widgets" widgetArrayJSON).2
      = sbctl.Return (Some (runtime.UnstructuredList l))
          (Some (unstructured.GroupVersionKind v0)) None
      ∧ unstructured.Items l = [v0]
      ∧ unstructured.ListGetKind l = unstructured.GetKind v0
      ∧ unstructured.GetKind v0 = "Widget".
Proof.
  assert (Hcall : sbctl.Call_Unmarshal_Slice widgetArrayJSON
                    ∈ (sbctl.Decode lib "widgets" widgetArrayJSON).1)
    by (vm_compute; repeat first [ apply list_elem_of_here | apply list_elem_of_further ]).
  split; [ exact Hcall | ].
  assert (∃ l gvk, (sbctl.Decode lib "widgets" widgetArrayJSON).2
               = sbctl.Return (Some (runtime.UnstructuredList l)) gvk None
               ∧ unstructured.ListGetKind l = "Widget") as (l & gvk & Hret & Hkind)
    by (eexists _, _; split; vm_compute; reflexivity).
  destruct (proj2 (Decode_list_kind lib "widgets" widgetArrayJSON)
              l gvk None Hcall Hret)
    as (v0 & rest & Hslice & Hitems & Hk & _ & _ & _ & -> & _).
  exists l, v0. split_and!; try done.
  - rewrite Hitems. f_equal. vm_compute in Hslice. by injection Hslice.
  - by rewrite <- Hk.
Defined.

(** ** [SortUnstructuredList] *)

Lemma StronglySorted_snoc {A : Type} (R : A → A → Prop) (l : list A) (x : A) :
  StronglySorted R l → Forall (λ y, R y x) l → StronglySorted R (l ++ [x]).
Proof.
  induction 1 as [ | a l Hl IH Ha ]; intros Hx; simpl.
  - repeat constructor.
  - apply Forall_cons in Hx as [Hax Hx]. constructor; [ by apply IH | ].
    apply Forall_app. split; [ done | by constructor ].
Qed.

Lemma StronglySorted_rev {A : Type} (R : A → A → Prop) (l : list A) :
  StronglySorted R l → StronglySorted (λ a b, R b a) (rev l).
Proof.
  induction 1 as [ | a l Hl IH Ha ]; simpl; [ constructor | ].
  apply StronglySorted_snoc; [ done | ].
  apply Forall_forall. intros y Hy. apply list_elem_of_In, in_rev in Hy.
  rewrite Forall_forall in Ha. by apply Ha, list_elem_of_In.
Qed.

Lemma StronglySorted_impl {A : Type} (R R' : A → A → Prop) (l : list A) :
  (∀ a b, R a b → R' a b) → StronglySorted R l → StronglySorted R' l.
Proof.
  intros Himpl. induction 1 as [ | a l Hl IH Ha ]; constructor; [ done | ].
  eapply Forall_impl; [ exact Ha | ]. intros b. apply Himpl.
Qed.

Section InsertionSort.

Context {A : Type} (less : A → A → bool).

Lemma sink_reorders (x : A) (before : list A) :
  sink less x before ≡ₚ x :: before.
Proof.
  induction before as [ | y before IH ]; simpl; [ done | ].
  destruct (less x y); [ | done ].
  rewrite IH. apply Permutation_swap.
Qed.

Lemma insertionSort_reorders (data : list A) :
  insertionSort less data ≡ₚ data.
Proof.
  unfold insertionSort. rewrite <- Permutation_rev.
  assert (∀ acc, foldl (λ before x, sink less x before) acc data
                 ≡ₚ data ++ acc) as Hfold.
  { induction data as [ | x data IH ]; intros acc; simpl; [ done | ].
    rewrite IH, sink_reorders. by rewrite Permutation_middle. }
  by rewrite Hfold, app_nil_r.
Qed.

Hypothesis less_order : StrictWeakOrder less.

(** The prefix, last element first: no element is less than one behind
    it. *)
Lemma sink_sorted (x : A) (before : list A) :
  StronglySorted (λ a b, less a b = false) before →
  StronglySorted (λ a b, less a b = false) (sink less x before).
Proof.
  induction 1 as [ | y before Hbefore IH Hy ]; simpl.
  - repeat constructor.
  - destruct (less x y) eqn:Hxy.
    + constructor; [ done | ].
      rewrite sink_reorders. constructor; [ | done ].
      destruct (less y x) eqn:Hyx; [ | done ].
      pose proof (less_transitive _ less_order _ _ _ Hxy Hyx) as Hxx.
      by rewrite (less_irreflexive _ less_order) in Hxx.
    + constructor; [ by constructor | ].
      constructor; [ done | ].
      eapply Forall_impl; [ exact Hy | ]. intros z Hyz.
      by apply (less_incomparable _ less_order x y z).
Qed.

Lemma insertionSort_sorted (data : list A) :
  StronglySorted (λ a b, less b a = false) (insertionSort less data).
Proof.
  unfold insertionSort. apply StronglySorted_rev.
  assert (∀ acc, StronglySorted (λ a b, less a b = false) acc →
                 StronglySorted (λ a b, less a b = false)
                   (foldl (λ before x, sink less x before) acc data))
    as Hfold.
  { induction data as [ | x data IH ]; intros acc Hacc; simpl; [ done | ].
    by apply IH, sink_sorted. }
  apply Hfold. constructor.
Qed.

End InsertionSort.

Lemma reference_sort_reorders : reorders (sort_Slice lib).
Proof. intros less l. apply insertionSort_reorders. Qed.

Lemma reference_sort_sorts : sorts (sort_Slice lib).
Proof. intros less Hless l. by apply insertionSort_sorted. Qed.

Lemma Before_order (L : Library) :
  StrictWeakOrder
    (λ i j, metav1.Before (creationTime L i) (creationTime L j)).
Proof.
  unfold metav1.Before. split.
  - intros a. apply Z.ltb_irrefl.
  - intros a b c. rewrite !Z.ltb_lt. lia.
  - intros a b c. rewrite !Z.ltb_ge. lia.
Qed.

Lemma creationTime_missing (L : Library) (u : unstructured.Unstructured) :
  unstructured.NestedFieldNoCopy (JObject (unstructured.Object u))
    ["metadata"; "creationTimestamp"] = None →
  creationTime L u = metav1.zeroTime.
Proof.
  intros Hmissing.
  unfold creationTime, unstructured.GetCreationTimestamp,
    unstructured.getNestedString.
  by rewrite Hmissing.
Qed.

(** C3, as the code has it: [SortUnstructuredList] reorders the items of
    the list, and only them, into ascending order of creation timestamp,
    an item without a timestamp counting as the zero time.  Items with
    equal timestamps are left where [sort.Slice] puts them: namespace
    and name are not compared. *)
Theorem SortUnstructuredList_sorted (L : Library)
    (list : unstructured.UnstructuredList) :
  reorders (sort_Slice L) →
  sorts (sort_Slice L) →
  unstructured.ListObject (sbctl.SortUnstructuredList L list)
  = unstructured.ListObject list
  ∧ unstructured.Items (sbctl.SortUnstructuredList L list)
    ≡ₚ unstructured.Items list
  ∧ StronglySorted (λ a b, (creationTime L a ≤ creationTime L b)%Z)
      (unstructured.Items (sbctl.SortUnstructuredList L list))
  ∧ ∀ u,
      unstructured.NestedFieldNoCopy (JObject (unstructured.Object u))
        ["metadata"; "creationTimestamp"] = None →
      creationTime L u = metav1.zeroTime.
Proof.
  intros Hreorders Hsorts. split_and!.
  - done.
  - apply Hreorders.
  - eapply StronglySorted_impl;
      [ | exact (Hsorts _ (Before_order L) (unstructured.Items list)) ].
    intros a b. unfold metav1.Before. by rewrite Z.ltb_ge.
  - apply creationTime_missing.
Qed.

Lemma SortUnstructuredList_sorted_witness :
  let list :=
    listOf [ podItem "b" "late" "2024-03-02T10:00:00Z";
             podItemNoTime "a" "none";
             podItem "a" "early" "2024-03-01T10:00:00Z" ] in
  reorders (sort_Slice lib)
  ∧ sorts (sort_Slice lib)
  ∧ unstructured.Items (sbctl.SortUnstructuredList lib list)
    = [ podItemNoTime "a" "none";
        podItem "a" "early" "2024-03-01T10:00:00Z";
        podItem "b" "late" "2024-03-02T10:00:00Z" ]
  ∧ StronglySorted (λ a b, (creationTime lib a ≤ creationTime lib b)%Z)
      (unstructured.Items (sbctl.SortUnstructuredList lib list))
  ∧ creationTime lib (podItemNoTime "a" "none") = metav1.zeroTime.
Proof.
  intros list.
  destruct (SortUnstructuredList_sorted lib list
              reference_sort_reorders reference_sort_sorts)
    as (_ & _ & Hsorted & Hzero).
  split_and!.
  - exact reference_sort_reorders.
  - exact reference_sort_sorts.
  - vm_compute. reflexivity.
  - exact Hsorted.
  - apply Hzero. vm_compute. reflexivity.
Defined.

(** C3, as stated, fails: two items with the same creation timestamp
    come out in the order they went in, whatever their namespaces and
    names, so the two orderings of the same two items give two different
    results. *)
Lemma SortUnstructuredList_ties_follow_input :
  let a := podItem "a" "x" "2024-03-01T10:00:00Z" in
  let b := podItem "b" "y" "2024-03-01T10:00:00Z" in
  creationTime lib a = creationTime lib b
  ∧ unstructured.GetNamespace a = "a"
  ∧ unstructured.GetNamespace b = "b"
  ∧ [b; a] ≡ₚ [a; b]
  ∧ unstructured.Items (sbctl.SortUnstructuredList lib (listOf [b; a])) = [b; a]
  ∧ unstructured.Items (sbctl.SortUnstructuredList lib (listOf [a; b])) = [a; b]
  ∧ sbctl.SortUnstructuredList lib (listOf [b; a])
    ≠ sbctl.SortUnstructuredList lib (listOf [a; b]).
Proof.
  intros a b. split_and!; try (vm_compute; reflexivity).
  - apply Permutation_swap.
  - intros Heq.
    apply (f_equal (λ l, unstructured.GetNamespace
                           <$> unstructured.Items l)) in Heq.
    vm_compute in Heq. discriminate Heq.
Qed.

(** ** [ToUnstructured] and [ToUnstructuredList] *)

Lemma EachListItem_children (items : list json) :
  ∀ children,
    unstructured_lists.EachListItem items = inl children ↔
    items = (λ item, JObject (unstructured.Object item)) <$> children.
Proof.
  induction items as [ | val items IH ]; intros children; simpl.
  - split.
    + by intros [= <-].
    + intros Heq. symmetry in Heq. by apply fmap_nil_inv in Heq as ->.
  - destruct val as [ | | | | | child ];
      try (split; [ done | by destruct children ]).
    destruct (unstructured_lists.EachListItem items) as [rest | err] eqn:Hrest.
    + split.
      * intros [= <-]. simpl. f_equal. by apply IH.
      * destruct children as [ | [m] children ]; [ done | ]. simpl.
        intros [= -> Heq]. apply IH in Heq. by simplify_eq.
    + split; [ done | ].
      destruct children as [ | [m] children ]; [ done | ]. simpl.
      intros [= -> Heq]. apply IH in Heq. by simplify_eq.
Qed.

Lemma EachListItem_fails (items : list json) :
  (∃ err, unstructured_lists.EachListItem items = inr err) ↔
  Exists (λ val, ∀ m, val ≠ JObject m) items.
Proof.
  induction items as [ | val items IH ]; simpl.
  - split; [ by intros [? ?] | by intros ?%Exists_nil ].
  - rewrite Exists_cons.
    destruct val as [ | | | | | child ];
      try (split; [ intros _; by left | intros _; by eexists ]).
    destruct (unstructured_lists.EachListItem items) as [rest | err].
    + split; [ by intros [? ?] | ].
      intros [Hchild | Hrest]; [ by destruct (Hchild child) | ].
      apply IH in Hrest as [? ?]. done.
    + split; [ | by eexists ].
      intros _. right. apply IH. by eexists.
Qed.

(** The content of an untyped list, read as a list again. *)
Lemma ToList_UnstructuredContent (l : unstructured.UnstructuredList) :
  unstructured_lists.ToList
    {| unstructured.Object := unstructured_lists.UnstructuredContent l |}
  = inl {| unstructured.ListObject := unstructured_lists.UnstructuredContent l;
           unstructured.Items := unstructured.Items l |}.
Proof.
  unfold unstructured_lists.ToList, unstructured_lists.IsList.
  cbn [unstructured.Object].
  unfold unstructured_lists.UnstructuredContent at 1 2.
  rewrite !lookup_insert_eq.
  by pose proof (proj2 (EachListItem_children _ (unstructured.Items l)) eq_refl)
    as ->.
Qed.

Lemma UnstructuredContent_kind (l : unstructured.UnstructuredList)
    (items : list unstructured.Unstructured) :
  unstructured.ListGetKind
    {| unstructured.ListObject := unstructured_lists.UnstructuredContent l;
       unstructured.Items := items |}
  = unstructured.ListGetKind l
  ∧ unstructured.ListGetAPIVersion
      {| unstructured.ListObject := unstructured_lists.UnstructuredContent l;
         unstructured.Items := items |}
    = unstructured.ListGetAPIVersion l.
Proof.
  unfold unstructured.ListGetKind, unstructured.ListGetAPIVersion,
    unstructured.getNestedString, unstructured_lists.UnstructuredContent.
  cbn [unstructured.ListObject unstructured.NestedFieldNoCopy].
  by rewrite !lookup_insert_ne.
Qed.

Section ConvertFacts.

Variable converter : runtime.Object → gmap string json + error.

(** X1: a list [ToUnstructuredList] returns holds the converter's content as
    it stands, and its items are the members of the content's [items] array,
    in their order; a content without an [items] array gives a list without
    items. *)
Theorem ToUnstructuredList_items (o : runtime.Object)
    (l : unstructured.UnstructuredList) :
  sbctl_convert.ToUnstructuredList converter o = inl l →
  converter o = inl (unstructured.ListObject l)
  ∧ match unstructured.ListObject l !! "items" with
    | Some (JArray items) =>
        items = (λ item, JObject (unstructured.Object item))
                  <$> unstructured.Items l
    | _ => unstructured.Items l = []
    end.
Proof.
  unfold sbctl_convert.ToUnstructuredList, sbctl_convert.ToUnstructured,
    unstructured_lists.ToList, unstructured_lists.IsList.
  destruct (converter o) as [data | err]; [ | done ].
  cbn [unstructured.Object].
  destruct (data !! "items") as [ [ | | | | items | ] | ] eqn:Hitems;
    try (intros [= <-]; cbn [unstructured.ListObject unstructured.Items];
         by rewrite Hitems).
  destruct (unstructured_lists.EachListItem items) as [children | ] eqn:Hchildren;
    [ | done ].
  intros [= <-]. cbn [unstructured.ListObject unstructured.Items].
  rewrite Hitems. split; [ done | ]. by apply EachListItem_children.
Qed.

(** X2: [ToUnstructuredList] returns the converter's error as it is; when the
    converter succeeds it fails exactly when the content's [items] is an array
    with a member that is not an object. *)
Theorem ToUnstructuredList_error (o : runtime.Object) :
  (∀ err,
     converter o = inr err →
     sbctl_convert.ToUnstructuredList converter o = inr err)
  ∧ (∀ data,
       converter o = inl data →
       (∃ err, sbctl_convert.ToUnstructuredList converter o = inr err) ↔
       ∃ items,
         data !! "items" = Some (JArray items)
         ∧ Exists (λ val, ∀ m, val ≠ JObject m) items).
Proof.
  unfold sbctl_convert.ToUnstructuredList, sbctl_convert.ToUnstructured,
    unstructured_lists.ToList, unstructured_lists.IsList.
  split.
  - intros err ->. done.
  - intros data ->. cbn [unstructured.Object].
    destruct (data !! "items") as [ [ | | | | items | ] | ] eqn:Hitems;
      try (split; [ by intros [? ?] | by intros (? & ? & ?) ]).
    pose proof (EachListItem_fails items) as Hfails.
    destruct (unstructured_lists.EachListItem items) as [children | err].
    + split; [ by intros [? ?] | ]. intros (? & [= <-] & Hexists).
      apply Hfails in Hexists as [? ?]. done.
    + split; [ | by eexists ]. intros _. exists items.
      split; [ done | ]. apply Hfails. by eexists.
Qed.

(** X3: an untyped list that the converter turns into its content comes back
    from [ToUnstructuredList] with the same items, kind, apiVersion and
    GroupVersionKind. *)
Theorem ToUnstructuredList_round_trip (l : unstructured.UnstructuredList) :
  converter (runtime.UnstructuredList l)
  = inl (unstructured_lists.UnstructuredContent l) →
  ∃ l',
    sbctl_convert.ToUnstructuredList converter (runtime.UnstructuredList l)
    = inl l'
    ∧ unstructured.Items l' = unstructured.Items l
    ∧ unstructured.ListGetKind l' = unstructured.ListGetKind l
    ∧ unstructured.ListGetAPIVersion l' = unstructured.ListGetAPIVersion l
    ∧ unstructured_lists.GroupVersionKind l'
      = unstructured_lists.GroupVersionKind l.
Proof.
  intros Hconv.
  unfold sbctl_convert.ToUnstructuredList, sbctl_convert.ToUnstructured.
  rewrite Hconv, ToList_UnstructuredContent.
  destruct (UnstructuredContent_kind l (unstructured.Items l))
    as [Hkind Hversion].
  eexists. split_and!; [ done | done | done | done | ].
  unfold unstructured_lists.GroupVersionKind. by rewrite Hkind, Hversion.
Qed.

End ConvertFacts.

Lemma ToUnstructuredList_items_witness :
  ∃ l,
    sbctl_convert.ToUnstructuredList convertUnstructured
      (runtime.UnstructuredList
         (listOf [ podItemNoTime "a" "x"; podItemNoTime "b" "y" ]))
    = inl l
    ∧ convertUnstructured
        (runtime.UnstructuredList
           (listOf [ podItemNoTime "a" "x"; podItemNoTime "b" "y" ]))
      = inl (unstructured.ListObject l)
    ∧ match unstructured.ListObject l !! "items" with
      | Some (JArray items) =>
          items = (λ item, JObject (unstructured.Object item))
                    <$> unstructured.Items l
      | _ => unstructured.Items l = []
      end.
Proof.
  eexists. split; [ vm_compute; reflexivity | ].
  apply ToUnstructuredList_items. vm_compute. reflexivity.
Defined.

Lemma ToUnstructuredList_error_witness :
  (∃ l, sbctl_convert.ToUnstructuredList convertUnstructured
          (runtime.Unstructured (podItemNoTime "a" "x")) = inl l
        ∧ unstructured.Items l = [])
  ∧ (∃ err,
       sbctl_convert.ToUnstructuredList convertUnstructured
         (runtime.Unstructured
            {| unstructured.Object :=
                 {["items" := JArray [JObject ∅; JString "x"]]} |})
       = inr err)
  ∧ sbctl_convert.ToUnstructuredList convertUnstructured
      (runtime.Typed "corev1.Pod"
         {| api.TypeMeta := {| metav1.Kind := "Pod"; metav1.APIVersion := "v1" |};
            api.Fields := ∅ |})
    = inr (errors.New "typed structs are outside this converter").
Proof.
  split_and!.
  - destruct (sbctl_convert.ToUnstructuredList convertUnstructured
                (runtime.Unstructured (podItemNoTime "a" "x")))
      as [l | err] eqn:Hlist.
    + exists l. split; [ done | ]. revert Hlist. vm_compute. by intros [= <-].
    + exfalso.
      destruct (proj1 (proj2 (ToUnstructuredList_error convertUnstructured
                                (runtime.Unstructured (podItemNoTime "a" "x")))
                         (unstructured.Object (podItemNoTime "a" "x")) eq_refl)
                  (ex_intro _ err Hlist)) as (items & Hitems & _).
      vm_compute in Hitems. discriminate Hitems.
  - eapply (proj2 (ToUnstructuredList_error convertUnstructured
                     (runtime.Unstructured
                        {| unstructured.Object :=
                             {["items" := JArray [JObject ∅; JString "x"]]} |}))
              {["items" := JArray [JObject ∅; JString "x"]]} eq_refl).
    eexists. split; [ apply lookup_singleton_eq | ].
    apply Exists_cons. right. apply Exists_cons. left. done.
  - by apply (proj1 (ToUnstructuredList_error convertUnstructured _)).
Defined.

Lemma ToUnstructuredList_round_trip_witness :
  convertUnstructured
    (runtime.UnstructuredList
       (unstructured.SetKind "PodList"
          (listOf [ podItemNoTime "a" "x"; podItemNoTime "b" "y" ])))
  = inl (unstructured_lists.UnstructuredContent
           (unstructured.SetKind "PodList"
              (listOf [ podItemNoTime "a" "x"; podItemNoTime "b" "y" ])))
  ∧ ∃ l',
      sbctl_convert.ToUnstructuredList convertUnstructured
        (runtime.UnstructuredList
           (unstructured.SetKind "PodList"
              (listOf [ podItemNoTime "a" "x"; podItemNoTime "b" "y" ])))
      = inl l'
      ∧ unstructured.Items l' = [ podItemNoTime "a" "x"; podItemNoTime "b" "y" ]
      ∧ unstructured.ListGetKind l' = "PodList".
Proof.
  split; [ reflexivity | ].
  destruct (ToUnstructuredList_round_trip convertUnstructured
              (unstructured.SetKind "PodList"
                 (listOf [ podItemNoTime "a" "x"; podItemNoTime "b" "y" ]))
              eq_refl) as (l' & Hlist & Hitems & Hkind & _).
  exists l'. split_and!; [ done | by rewrite Hitems | by rewrite Hkind ].
Defined.

(** ** More on [Decode] *)

Section MoreDecodeFacts.

Variable L : Library.

(** X4: when [Decode] returns an error it returns no object and no GVK, and
    the error is the array reader's, wrapped with the message of the last
    return: the last strategy ran, on the original bytes. *)
Theorem Decode_error_excludes_object (resource data : string)
    (decoded : option runtime.Object) (gvk : option schema.GroupVersionKind)
    (err : error) :
  (sbctl.Decode L resource data).2 = sbctl.Return decoded gvk (Some err) →
  decoded = None
  ∧ gvk = None
  ∧ ∃ cause,
      unstructured.UnmarshalSlice (json_read L) data = inr cause
      ∧ err = errors.withMessage cause "could not decode data into a k8s object"
      ∧ sbctl.Call_Unmarshal_Slice data ∈ (sbctl.Decode L resource data).1.
Proof.
  run_Decode; intros Hret; simplify_eq.
  all: split_and!; [ done | done | ].
  all: eexists; split_and!; [ done | done | ].
  all: repeat first [ apply list_elem_of_here | apply list_elem_of_further ].
Qed.

(** X5: every library call of [Decode] reads the bytes it was given; only the
    typed decoder also reads the list envelope that [wrapListData] puts around
    them. *)
Theorem Decode_calls_on_original_bytes (resource data : string) :
  Forall
    (λ e,
       match e with
       | sbctl.Call_decode bytes =>
           bytes = data ∨ sbctl.wrapListData resource data = inl bytes
       | sbctl.Call_Unmarshal_Unstructured bytes => bytes = data
       | sbctl.Call_Unmarshal_Slice bytes => bytes = data
       | sbctl.Log_Warn _ => True
       end)
    (sbctl.Decode L resource data).1.
Proof.
  destruct (sbctl.wrapListData resource data) as [wrapped | werr] eqn:Hwrap.
  - unfold sbctl.Decode, sbctl.decodeWrapped. rewrite Hwrap. run_Decode.
    all: repeat (apply Forall_cons; split;
                 [ first [ done | by left | by right ] | ]);
      by apply Forall_nil.
  - unfold sbctl.Decode, sbctl.decodeWrapped. rewrite Hwrap. run_Decode.
    all: repeat (apply Forall_cons; split;
                 [ first [ done | by left | by right ] | ]);
      by apply Forall_nil.
Qed.

(** X6: the resource hint counts only through its list kind and group/version:
    two hints with the same ones give the same result and the same library
    calls on the same bytes. *)
Theorem Decode_hint_aliases (resource resource' data : string) :
  sbctl.listKindOf resource = sbctl.listKindOf resource' →
  (sbctl.Decode L resource data).2 = (sbctl.Decode L resource' data).2
  ∧ calls (sbctl.Decode L resource data).1
    = calls (sbctl.Decode L resource' data).1.
Proof.
  intros Hkind.
  unfold sbctl.Decode, sbctl.decodeWrapped, sbctl.wrapListData.
  rewrite Hkind.
  destruct (sbctl.listKindOf resource') as [ [kind apiVersion] | ];
    run_Decode; done.
Qed.

End MoreDecodeFacts.

(** ** Group/version strings *)

Lemma count_slash_app (a b : string) :
  schema.count_slash (a +:+ b) = schema.count_slash a + schema.count_slash b.
Proof.
  induction a as [ | c a IH ]; [ done | ].
  change (String c a +:+ b) with (String c (a +:+ b)). simpl. rewrite IH. lia.
Qed.

Lemma cut_slash_spec (s : string) :
  schema.count_slash s ≠ 0 →
  s = (schema.cut_slash s).1 +:+ "/" +:+ (schema.cut_slash s).2
  ∧ schema.count_slash (schema.cut_slash s).1 = 0
  ∧ schema.count_slash s = S (schema.count_slash (schema.cut_slash s).2).
Proof.
  induction s as [ | c s IH ]; [ done | ]. simpl.
  case_bool_decide as Hc.
  - intros _. subst c. simpl. done.
  - intros Hcount. destruct (IH Hcount) as (Hs & Hg & Hv).
    destruct (schema.cut_slash s) as [g v]. simpl in *.
    rewrite bool_decide_eq_false_2 by done.
    split_and!; [ | done | done ].
    change (String c g +:+ "/" +:+ v) with (String c (g +:+ "/" +:+ v)).
    by f_equal.
Qed.

Lemma cut_slash_app (g v : string) :
  schema.count_slash g = 0 → schema.cut_slash (g +:+ "/" +:+ v) = (g, v).
Proof.
  induction g as [ | c g IH ]; [ done | ].
  change (String c g +:+ "/" +:+ v) with (String c (g +:+ "/" +:+ v)).
  simpl. case_bool_decide; [ done | ]. intros Hg. by rewrite IH.
Qed.

(** A group/version that was read from a string reads back from its own
    string. *)
Lemma ParseGroupVersion_String (apiVersion : string) (gv : schema.GroupVersion) :
  schema.ParseGroupVersion apiVersion = inl gv →
  schema.ParseGroupVersion (schema.GroupVersionString gv) = inl gv.
Proof.
  unfold schema.ParseGroupVersion.
  destruct (bool_decide (apiVersion = "") || bool_decide (apiVersion = "/"))
    eqn:Hempty.
  { intros [= <-]. done. }
  apply orb_false_elim in Hempty as [Hne%bool_decide_eq_false Hns%bool_decide_eq_false].
  destruct (schema.count_slash apiVersion) as [ | [ | n ] ] eqn:Hcount; [ | | done ].
  - intros [= <-]. unfold schema.GroupVersionString. simpl.
    rewrite !bool_decide_eq_false_2 by done. simpl. by rewrite Hcount.
  - destruct (cut_slash_spec apiVersion) as (Hs & Hg & Hv); [ lia | ].
    destruct (schema.cut_slash apiVersion) as [g v]. simpl in *.
    intros [= <-]. unfold schema.GroupVersionString. simpl.
    assert (Hv0 : schema.count_slash v = 0) by lia.
    destruct (decide (g = "")) as [-> | Hgroup].
    + rewrite (bool_decide_eq_true_2 ("" = "")) by done.
      assert (v ≠ "") by (intros ->; by apply Hns).
      assert (v ≠ "/") by (intros ->; done).
      rewrite !bool_decide_eq_false_2 by done. simpl. by rewrite Hv0.
    + rewrite (bool_decide_eq_false_2 (g = "")) by done.
      assert (g +:+ "/" +:+ v ≠ "") by (by destruct g).
      assert (g +:+ "/" +:+ v ≠ "/").
      { destruct g as [ | c g ]; [ done | ].
        change (String c g +:+ "/" +:+ v) with (String c (g +:+ "/" +:+ v)).
        intros [= -> Hrest]. by destruct g. }
      rewrite !bool_decide_eq_false_2 by done. simpl.
      rewrite !count_slash_app, Hg, Hv0. simpl.
      by rewrite cut_slash_app.
Qed.

Lemma UnmarshalJSON_gvk (val : json) (u : unstructured.Unstructured) :
  unstructured.UnmarshalJSON val = inl u →
  ∃ gv,
    schema.ParseGroupVersion (unstructured.GetAPIVersion u) = inl gv
    ∧ unstructured.GroupVersionKind u
      = schema.WithKind gv (unstructured.GetKind u)
    ∧ unstructured.GetKind u ≠ "".
Proof.
  destruct val as [ | | | | | m ]; try done. cbn [unstructured.UnmarshalJSON].
  case_bool_decide as Hkind; [ done | ]. intros [= <-].
  revert Hkind. unfold unstructured.GroupVersionKind.
  destruct (schema.ParseGroupVersion _) as [gv | ]; simpl; [ | done ].
  intros Hkind. by exists gv.
Qed.

Lemma UnmarshalSlice_head (read : string → json + error) (data : string)
    (v0 : unstructured.Unstructured) (rest : list unstructured.Unstructured) :
  unstructured.UnmarshalSlice read data = inl (v0 :: rest) →
  ∃ val, unstructured.UnmarshalJSON val = inl v0.
Proof.
  unfold unstructured.UnmarshalSlice.
  destruct (read data) as [ [ | | | | vals | ] | ]; try done.
  destruct vals as [ | val vals ]; [ done | ]. simpl.
  destruct (unstructured.UnmarshalJSON val) as [u | ] eqn:Hval; [ | done ].
  destruct (unstructured.UnmarshalElems vals); [ | done ].
  intros [= <- <-]. by exists val.
Qed.

Lemma list_GroupVersionKind_read_back (gv : schema.GroupVersion)
    (kind : string) (items : list unstructured.Unstructured) :
  schema.ParseGroupVersion (schema.GroupVersionString gv) = inl gv →
  unstructured_lists.GroupVersionKind
    (unstructured.SetGroupVersionKind (schema.WithKind gv kind)
       {| unstructured.ListObject := ∅; unstructured.Items := items |})
  = schema.WithKind gv kind.
Proof.
  intros Hparse.
  unfold unstructured_lists.GroupVersionKind, unstructured.ListGetKind,
    unstructured.ListGetAPIVersion, unstructured.getNestedString,
    unstructured.SetGroupVersionKind, unstructured.SetKind,
    unstructured.SetAPIVersion.
  cbn [unstructured.ListObject unstructured.Items
       unstructured.NestedFieldNoCopy].
  rewrite lookup_insert_ne by done. rewrite !lookup_insert_eq.
  cbv beta iota.
  replace (schema.GroupVersionOf (schema.WithKind gv kind)) with gv
    by (by destruct gv).
  by rewrite Hparse.
Qed.

Section GVKFacts.

Variable L : Library.

(** X7: an object that [Decode] returns after the untyped reader ran (the
    third and fourth strategies) is an untyped object or list whose own
    GroupVersionKind is the GVK returned with it, and the kind is not empty.
    *)
Theorem Decode_untyped_gvk (resource data : string) (o : runtime.Object)
    (gvk : option schema.GroupVersionKind) (err : option error) :
  sbctl.Call_Unmarshal_Unstructured data ∈ (sbctl.Decode L resource data).1 →
  (sbctl.Decode L resource data).2 = sbctl.Return (Some o) gvk err →
  ∃ g,
    gvk = Some g
    ∧ schema.Kind g ≠ ""
    ∧ match o with
      | runtime.Unstructured u => unstructured.GroupVersionKind u = g
      | runtime.UnstructuredList l => unstructured_lists.GroupVersionKind l = g
      | _ => False
      end.
Proof.
  run_Decode; intros Hcall Hret; simplify_eq; try (by absurd_call Hcall).
  all: unfold unstructured.DeepCopyObject; eexists; split; [ done | ].
  all: first
    [ match goal with
      | H : unstructured.Unmarshal _ _ = inl _ |- _ =>
          unfold unstructured.Unmarshal in H;
          destruct (json_read L data) as [val | ]; [ | done ];
          apply UnmarshalJSON_kind in H as (_ & -> & ?); done
      end
    | match goal with
      | H : unstructured.UnmarshalSlice _ _ = inl _ |- _ =>
          apply UnmarshalSlice_head in H as [val Hval];
          apply UnmarshalJSON_gvk in Hval as (gv & Hparse & Hgvk & Hkind)
      end;
      rewrite Hgvk; split; [ done | ];
      apply (list_GroupVersionKind_read_back gv);
      by apply (ParseGroupVersion_String _ _ Hparse) ].
Qed.

End GVKFacts.

(** ** The list-wrapping strategy and the type switch *)

Section WrappedFacts.

Variable L : Library.

(** The result of the list-wrapping strategy. *)
Lemma Decode_wrapped_result (resource data wrapped : string)
    (gvk0 gvk : option schema.GroupVersionKind) (err0 : error)
    (err : option error) (decoded : runtime.Object) :
  UniversalDeserializer_Decode L data = (None, gvk0, Some err0) →
  sbctl.wrapListData resource data = inl wrapped →
  UniversalDeserializer_Decode L wrapped = (Some decoded, gvk, err) →
  (sbctl.Decode L resource data).2
  = sbctl.Return (Some (sbctl.stampItems decoded)) gvk None.
Proof.
  intros Hraw Hwrap Hwrapped.
  unfold sbctl.Decode, sbctl.decodeWrapped, sbctl.decode, sbctl.log_Warn,
    sbctl.emit.
  rewrite Hwrap. cbn [mbind mret sbctl.Log_bind sbctl.Log_ret].
  rewrite Hraw. cbn [mbind mret sbctl.Log_bind sbctl.Log_ret].
  rewrite Hwrapped. by destruct err.
Qed.

(** X8: for a recognized hint other than ingress, ingresses and
    customresourcedefinitions, when the typed decoder fails on the bytes and
    reads the list envelope as the list type of the scheme, [Decode] returns
    that list with as many items, each stamped with the singular of the list
    kind and the envelope's apiVersion. *)
Theorem Decode_wrapped_items_stamped (resource data kind apiVersion : string)
    (t : api.ListType) (o : api.ResourceList)
    (gvk0 gvk : option schema.GroupVersionKind) (err0 : error)
    (err : option error) :
  sbctl.listKindOf resource = Some (kind, apiVersion) →
  resource ∉ ["ingress"; "ingresses"; "customresourcedefinitions"] →
  lookupScheme schemeLists apiVersion kind = Some t →
  UniversalDeserializer_Decode L data = (None, gvk0, Some err0) →
  UniversalDeserializer_Decode L (sbctl.listEnvelope kind apiVersion data)
  = (Some (runtime.TypedList t o), gvk, err) →
  ∃ o',
    (sbctl.Decode L resource data).2
    = sbctl.Return (Some (runtime.TypedList t o')) gvk None
    ∧ length (api.Items o') = length (api.Items o)
    ∧ Forall
        (λ item,
           singularOf kind (metav1.Kind (api.TypeMeta item))
           ∧ metav1.APIVersion (api.TypeMeta item) = apiVersion)
        (api.Items o').
Proof.
  intros Hkind Hnot Hscheme Hraw Hwrapped.
  assert (Hwrap : sbctl.wrapListData resource data
                  = inl (sbctl.listEnvelope kind apiVersion data))
    by (unfold sbctl.wrapListData; by rewrite Hkind).
  rewrite (Decode_wrapped_result _ _ _ _ _ _ _ _ Hraw Hwrap Hwrapped).
  apply listKindOf_Some in Hkind. unfold recognizedHints in Hkind.
  repeat (apply elem_of_cons in Hkind as [Hkind | Hkind];
          [ injection Hkind as -> -> ->;
            first
              [ exfalso; apply Hnot; by apply (bool_decide_unpack _)
              | vm_compute in Hscheme; injection Hscheme as <-;
                eexists; split; [ reflexivity | ];
                cbn [sbctl.setItemsGVK api.Items];
                split; [ by rewrite length_fmap | ];
                apply Forall_fmap, Forall_true; intros item; by vm_compute ]
          | ]).
  by apply elem_of_nil in Hkind.
Qed.

End WrappedFacts.

Lemma Decode_wrapped_items_stamped_witness :
  ∃ o',
    (sbctl.Decode lib "pods" podArrayJSON).2
    = sbctl.Return (Some (runtime.TypedList api.corev1_PodList o'))
        (Some {| schema.Group := ""; schema.Version := "v1";
                 schema.Kind := "PodList" |}) None
    ∧ length (api.Items o') = 1
    ∧ Forall
        (λ item,
           singularOf "PodList" (metav1.Kind (api.TypeMeta item))
           ∧ metav1.APIVersion (api.TypeMeta item) = "v1")
        (api.Items o').
Proof.
  assert (∃ o gvk0 err0,
            UniversalDeserializer_Decode lib podArrayJSON
            = (None, gvk0, Some err0)
            ∧ UniversalDeserializer_Decode lib
                (sbctl.listEnvelope "PodList" "v1" podArrayJSON)
              = (Some (runtime.TypedList api.corev1_PodList o),
                 Some {| schema.Group := ""; schema.Version := "v1";
                         schema.Kind := "PodList" |}, None)
            ∧ length (api.Items o) = 1)
    as (o & gvk0 & err0 & Hraw & Hwrapped & Hlength)
    by (eexists _, _, _; split_and!; vm_compute; reflexivity).
  destruct (Decode_wrapped_items_stamped lib "pods" podArrayJSON "PodList" "v1"
              api.corev1_PodList o gvk0 _ err0 None eq_refl
              ltac:(by apply (bool_decide_unpack _)) eq_refl Hraw Hwrapped)
    as (o' & Hret & Hlen & Hitems).
  exists o'. split_and!; [ done | by rewrite Hlen | done ].
Defined.

Section WrappedExceptions.

Variable L : Library.

(** X9: the three other hints: for customresourcedefinitions the items are
    stamped with the list's own kind CustomResourceDefinitionList and its
    apiVersion; for ingress and ingresses the type switch has no case and the
    decoder's list is returned as it is. *)
Theorem Decode_wrapped_items_exceptions
    (resource data kind apiVersion : string)
    (t : api.ListType) (o : api.ResourceList)
    (gvk0 gvk : option schema.GroupVersionKind) (err0 : error)
    (err : option error) :
  sbctl.listKindOf resource = Some (kind, apiVersion) →
  resource ∈ ["ingress"; "ingresses"; "customresourcedefinitions"] →
  lookupScheme schemeLists apiVersion kind = Some t →
  UniversalDeserializer_Decode L data = (None, gvk0, Some err0) →
  UniversalDeserializer_Decode L (sbctl.listEnvelope kind apiVersion data)
  = (Some (runtime.TypedList t o), gvk, err) →
  ∃ o',
    (sbctl.Decode L resource data).2
    = sbctl.Return (Some (runtime.TypedList t o')) gvk None
    ∧ if bool_decide (resource = "customresourcedefinitions")
      then length (api.Items o') = length (api.Items o)
           ∧ Forall
               (λ item,
                  metav1.Kind (api.TypeMeta item) = kind
                  ∧ metav1.APIVersion (api.TypeMeta item) = apiVersion)
               (api.Items o')
      else o' = o.
Proof.
  intros Hkind Hin Hscheme Hraw Hwrapped.
  assert (Hwrap : sbctl.wrapListData resource data
                  = inl (sbctl.listEnvelope kind apiVersion data))
    by (unfold sbctl.wrapListData; by rewrite Hkind).
  rewrite (Decode_wrapped_result _ _ _ _ _ _ _ _ _ Hraw Hwrap Hwrapped).
  repeat (apply elem_of_cons in Hin as [-> | Hin];
          [ vm_compute in Hkind; injection Hkind as <- <-;
            vm_compute in Hscheme; injection Hscheme as <-;
            eexists; split; [ reflexivity | ]
          | ]).
  - done.
  - done.
  - rewrite bool_decide_eq_true_2 by done.
    cbn [sbctl.setItemsGVK api.Items].
    split; [ by rewrite length_fmap | ].
    apply Forall_fmap, Forall_true. intros item. by vm_compute.
  - by apply elem_of_nil in Hin.
Qed.

End WrappedExceptions.

Lemma Decode_wrapped_items_exceptions_witness :
  ∃ o',
    (sbctl.Decode lib "customresourcedefinitions" crdArrayJSON).2
    = sbctl.Return
        (Some (runtime.TypedList
                 api.extensionsv1_CustomResourceDefinitionList o'))
        (Some {| schema.Group := "apiextensions.k8s.io";
                 schema.Version := "v1";
                 schema.Kind := "CustomResourceDefinitionList" |}) None
    ∧ length (api.Items o') = 1
    ∧ Forall
        (λ item,
           metav1.Kind (api.TypeMeta item) = "CustomResourceDefinitionList"
           ∧ metav1.APIVersion (api.TypeMeta item) = "apiextensions.k8s.io/v1")
        (api.Items o').
Proof.
  assert (∃ o gvk0 err0,
            UniversalDeserializer_Decode lib crdArrayJSON
            = (None, gvk0, Some err0)
            ∧ UniversalDeserializer_Decode lib
                (sbctl.listEnvelope "CustomResourceDefinitionList"
                   "apiextensions.k8s.io/v1" crdArrayJSON)
              = (Some (runtime.TypedList
                         api.extensionsv1_CustomResourceDefinitionList o),
                 Some {| schema.Group := "apiextensions.k8s.io";
                         schema.Version := "v1";
                         schema.Kind := "CustomResourceDefinitionList" |},
                 None)
            ∧ length (api.Items o) = 1)
    as (o & gvk0 & err0 & Hraw & Hwrapped & Hlength)
    by (eexists _, _, _; split_and!; vm_compute; reflexivity).
  destruct (Decode_wrapped_items_exceptions lib "customresourcedefinitions"
              crdArrayJSON "CustomResourceDefinitionList"
              "apiextensions.k8s.io/v1"
              api.extensionsv1_CustomResourceDefinitionList o gvk0 _ err0 None
              eq_refl ltac:(by apply (bool_decide_unpack _)) eq_refl
              Hraw Hwrapped)
    as (o' & Hret & Hlen & Hitems).
  exists o'. split_and!; [ done | by rewrite Hlen | done ].
Defined.

(** ** From the bytes to the sorted list *)

(** X10: [Decode], [ToUnstructuredList] and [SortUnstructuredList] composed on
    an array of untyped objects: the sorted list holds the elements read from
    the bytes, reordered, in the order of their creation times, under the kind
    [Decode] gave the list. *)
Theorem Decode_convert_sort (L : Library)
    (converter : runtime.Object → gmap string json + error)
    (resource data : string) (l : unstructured.UnstructuredList)
    (gvk : option schema.GroupVersionKind) (err : option error) :
  sbctl.Call_Unmarshal_Slice data ∈ (sbctl.Decode L resource data).1 →
  (sbctl.Decode L resource data).2
  = sbctl.Return (Some (runtime.UnstructuredList l)) gvk err →
  converter (runtime.UnstructuredList l)
  = inl (unstructured_lists.UnstructuredContent l) →
  reorders (sort_Slice L) →
  sorts (sort_Slice L) →
  ∃ elems l',
    unstructured.UnmarshalSlice (json_read L) data = inl elems
    ∧ sbctl_convert.ToUnstructuredList converter (runtime.UnstructuredList l)
      = inl l'
    ∧ unstructured.Items (sbctl.SortUnstructuredList L l') ≡ₚ elems
    ∧ StronglySorted (λ a b, (creationTime L a ≤ creationTime L b)%Z)
        (unstructured.Items (sbctl.SortUnstructuredList L l'))
    ∧ unstructured.ListGetKind (sbctl.SortUnstructuredList L l')
      = unstructured.ListGetKind l.
Proof.
  intros Hcall Hret Hconv Hreorders Hsorts.
  assert (Helems : unstructured.UnmarshalSlice (json_read L) data
                   = inl (unstructured.Items l)).
  { revert Hcall Hret. run_Decode; intros Hcall Hret; simplify_eq;
      try (by absurd_call Hcall); done. }
  exists (unstructured.Items l). eexists. split; [ done | ].
  unfold sbctl_convert.ToUnstructuredList, sbctl_convert.ToUnstructured.
  rewrite Hconv, ToList_UnstructuredContent. split; [ done | ].
  split_and!.
  - apply Hreorders.
  - eapply StronglySorted_impl;
      [ | exact (Hsorts _ (Before_order L) (unstructured.Items l)) ].
    intros a b. unfold metav1.Before. by rewrite Z.ltb_ge.
  - apply (UnstructuredContent_kind l).
Qed.

(** ** Insertion sort keeps ties in place *)

Section Stable.

Context {A : Type} (key : A → Z).

Lemma sink_stable (t : Z) (x : A) (before : list A) :
  filter (λ a, key a = t) (rev (sink (λ a b, key a <? key b)%Z x before))
  = filter (λ a, key a = t) (rev before ++ [x]).
Proof.
  induction before as [ | y before IH ]; [ done | ]. simpl.
  destruct (key x <? key y)%Z eqn:Hless; [ | done ].
  apply Z.ltb_lt in Hless. simpl.
  rewrite !filter_app, IH, !filter_app, <- !app_assoc. f_equal.
  rewrite !filter_cons, !filter_nil.
  repeat case_decide; try done; lia.
Qed.

Lemma insertionSort_stable (t : Z) (data : list A) :
  filter (λ a, key a = t) (insertionSort (λ a b, key a <? key b)%Z data)
  = filter (λ a, key a = t) data.
Proof.
  unfold insertionSort.
  assert (∀ acc,
            filter (λ a, key a = t)
              (rev (foldl (λ before x, sink (λ a b, key a <? key b)%Z x before)
                      acc data))
            = filter (λ a, key a = t) (rev acc ++ data)) as Hfold.
  { induction data as [ | x data IH ]; intros acc; simpl.
    - by rewrite app_nil_r.
    - rewrite IH, filter_app, sink_stable, <- filter_app, <- app_assoc. done. }
  apply Hfold.
Qed.

End Stable.

(** X11: where [sort.Slice] is the insertion sort on slices of at most 12
    elements, as in Go's pdqsort, [SortUnstructuredList] on such a list keeps
    the items of one creation time in the order they had. *)
Theorem SortUnstructuredList_stable_short (L : Library)
    (list : unstructured.UnstructuredList) (t : metav1.Time) :
  (∀ less l, length l ≤ 12 → sort_Slice L less l = insertionSort less l) →
  length (unstructured.Items list) ≤ 12 →
  filter (λ u, creationTime L u = t)
    (unstructured.Items (sbctl.SortUnstructuredList L list))
  = filter (λ u, creationTime L u = t) (unstructured.Items list).
Proof.
  intros Hshort Hlength.
  cbn [sbctl.SortUnstructuredList unstructured.Items].
  rewrite Hshort by done.
  apply (insertionSort_stable (creationTime L)).
Qed.

Lemma SortUnstructuredList_stable_short_witness :
  let a := podItem "a" "x" "2024-03-01T10:00:00Z" in
  let b := podItem "b" "y" "2024-03-01T10:00:00Z" in
  let c := podItemNoTime "c" "z" in
  filter (λ u, creationTime lib u = creationTime lib a)
    (unstructured.Items (sbctl.SortUnstructuredList lib (listOf [b; c; a])))
  = [b; a].
Proof.
  intros a b c.
  rewrite (SortUnstructuredList_stable_short lib (listOf [b; c; a])).
  - vm_compute. reflexivity.
  - reflexivity.
  - simpl. lia.
Defined.

Lemma Decode_error_excludes_object_witness :
  ∃ err cause,
    (sbctl.Decode lib "widgets" kindlessJSON).2
    = sbctl.Return None None (Some err)
    ∧ unstructured.UnmarshalSlice (json_read lib) kindlessJSON = inr cause
    ∧ err = errors.withMessage cause "could not decode data into a k8s object".
Proof.
  assert (∃ err, (sbctl.Decode lib "widgets" kindlessJSON).2
                 = sbctl.Return None None (Some err)) as [err Hret]
    by (eexists; vm_compute; reflexivity).
  destruct (Decode_error_excludes_object lib "widgets" kindlessJSON
              None None err Hret) as (_ & _ & cause & Hcause & Herr & _).
  exists err, cause. split_and!; assumption.
Defined.

Lemma Decode_hint_aliases_witness :
  sbctl.listKindOf "ingress" = sbctl.listKindOf "ingresses"
  ∧ (sbctl.Decode lib "ingress" widgetArrayJSON).2
    = (sbctl.Decode lib "ingresses" widgetArrayJSON).2
  ∧ calls (sbctl.Decode lib "ingress" widgetArrayJSON).1
    = calls (sbctl.Decode lib "ingresses" widgetArrayJSON).1.
Proof.
  split; [ reflexivity | ].
  apply (Decode_hint_aliases lib "ingress" "ingresses" widgetArrayJSON).
  reflexivity.
Defined.

Lemma Decode_untyped_gvk_witness :
  sbctl.Call_Unmarshal_Unstructured widgetArrayJSON
    ∈ (sbctl.Decode lib "widgets" widgetArrayJSON).1
  ∧ ∃ l g,
      (sbctl.Decode lib "widgets" widgetArrayJSON).2
      = sbctl.Return (Some (runtime.UnstructuredList l)) (Some g) None
      ∧ unstructured_lists.GroupVersionKind l = g
      ∧ schema.Kind g = "Widget".
Proof.
  assert (Hcall : sbctl.Call_Unmarshal_Unstructured widgetArrayJSON
                    ∈ (sbctl.Decode lib "widgets" widgetArrayJSON).1)
    by (vm_compute;
        repeat first [ apply list_elem_of_here | apply list_elem_of_further ]).
  split; [ exact Hcall | ].
  assert (∃ l g, (sbctl.Decode lib "widgets" widgetArrayJSON).2
                 = sbctl.Return (Some (runtime.UnstructuredList l)) (Some g)
                     None
                 ∧ schema.Kind g = "Widget") as (l & g & Hret & Hkind)
    by (eexists _, _; split; vm_compute; reflexivity).
  destruct (Decode_untyped_gvk lib "widgets" widgetArrayJSON _ _ _ Hcall Hret)
    as (g' & [= <-] & _ & Hgvk).
  exists l, g. split_and!; assumption.
Defined.

Lemma Decode_convert_sort_witness :
  ∃ l l',
    (sbctl.Decode lib "widgets" widgetsByTimeJSON).2
    = sbctl.Return (Some (runtime.UnstructuredList l))
        (Some {| schema.Group := "example.com"; schema.Version := "v1";
                 schema.Kind := "Widget" |})
        None
    ∧ sbctl_convert.ToUnstructuredList convertUnstructured
        (runtime.UnstructuredList l)
      = inl l'
    ∧ unstructured.GetName <$> unstructured.Items l = [ "late"; "early" ]
    ∧ StronglySorted (λ a b, (creationTime lib a ≤ creationTime lib b)%Z)
        (unstructured.Items (sbctl.SortUnstructuredList lib l'))
    ∧ unstructured.ListGetKind (sbctl.SortUnstructuredList lib l') = "Widget".
Proof.
  assert (Hcall : sbctl.Call_Unmarshal_Slice widgetsByTimeJSON
                    ∈ (sbctl.Decode lib "widgets" widgetsByTimeJSON).1)
    by (vm_compute;
        repeat first [ apply list_elem_of_here | apply list_elem_of_further ]).
  assert (∃ l, (sbctl.Decode lib "widgets" widgetsByTimeJSON).2
               = sbctl.Return (Some (runtime.UnstructuredList l))
                   (Some {| schema.Group := "example.com";
                            schema.Version := "v1";
                            schema.Kind := "Widget" |})
                   None
               ∧ unstructured.GetName <$> unstructured.Items l
                 = [ "late"; "early" ]
               ∧ unstructured.ListGetKind l = "Widget")
    as (l & Hret & Hnames & Hkind)
    by (eexists; split_and!; vm_compute; reflexivity).
  destruct (Decode_convert_sort lib convertUnstructured "widgets"
              widgetsByTimeJSON l _ _ Hcall Hret eq_refl
              reference_sort_reorders reference_sort_sorts)
    as (elems & l' & _ & Hlist & _ & Hsorted & Hkind').
  exists l, l'. split_and!; try assumption. by rewrite Hkind'.
Defined.

(** ** [cli/shell.go] *)

Section ShellFacts.

Context {ClusterData : Type} (ClusterResourcesDir : ClusterData → string).
Variable sys : @cli.System ClusterData.

(** X12: [startShellAndWait] panics exactly when SHELL is set, the shell
    starts and the terminal cannot be put in raw mode; once the resize handler
    is set it is stopped last, also on the panic; a terminal put in raw mode
    is restored; and the shell started is the non-empty SHELL. *)
Theorem startShellAndWait_restores (cmds : list string) :
  (∀ err,
     (cli.startShell sys cmds).2 = cli.Panics err ↔
     cli.os_Getenv_SHELL sys ≠ ""
     ∧ cli.pty_Start sys (cli.os_Getenv_SHELL sys) = None
     ∧ cli.term_MakeRaw sys = Some err)
  ∧ (cli.NotifyResize ∈ (cli.startShell sys cmds).1 →
     last (cli.startShell sys cmds).1 = Some cli.StopResize)
  ∧ (cli.MakeRaw ∈ (cli.startShell sys cmds).1 →
     cli.term_MakeRaw sys = None →
     cli.Term_Restore ∈ (cli.startShell sys cmds).1)
  ∧ (∀ shellCmd,
       cli.PtyStart shellCmd ∈ (cli.startShell sys cmds).1 →
       shellCmd = cli.os_Getenv_SHELL sys ∧ shellCmd ≠ "").
Proof.
  split_and!.
  - intros err. run_cli; split; try done.
    all: try (intros (? & ? & ?); simplify_eq; done).
    all: try (intros [= <-]; split_and!; try done;
              by eapply bool_decide_eq_false_1).
    all: intros (Hne & _); by apply bool_decide_eq_true_1 in Heqb.
  - run_cli; intros Hin; in_cases Hin; done.
  - run_cli; intros Hin Hraw; in_cases Hin; simplify_eq; find_event.
  - intros shellCmd. run_cli; intros Hin; in_cases Hin.
    all: split; [ done | by eapply bool_decide_eq_false_1 ].
Qed.

End ShellFacts.

Section RunESteps.

Context {ClusterData : Type} (ClusterResourcesDir : ClusterData → string).
Variable sys : @cli.System ClusterData.

(** [cleanup()] removes the paths of [cleanupPaths] and leaves the
    variables. *)
Lemma cleanup_run (vars : cli.Vars) :
  cli.cleanup (ClusterData := ClusterData) vars
  = ((λ path, (vars, cli.RemoveAll path)) <$> cli.cleanupPaths vars, vars,
     inl tt).
Proof.
  destruct vars as [k b d]. unfold cli.cleanupPaths.
  cli_step.
  destruct (bool_decide (k ≠ "")), d, (bool_decide (b ≠ "")); reflexivity.
Qed.

(** The steps of [RunE]: the log file is set up, the interrupt handler
    started, lines 72-145 run, [cleanup] runs on the variables they leave,
    and the log file is removed and closed. *)
Lemma RunE_run (flags : cli.Flags) (args : list string) :
  cli.RunE ClusterResourcesDir sys flags args
  = let '(steps, vars, r) :=
      cli.locateAndServe ClusterResourcesDir sys flags args
        (cli.logOutputOf sys) cli.initial in
    (((λ e, (cli.initial, e)) <$> cli.logSetup sys)
     ++ (cli.initial, cli.GoInterruptHandler) :: steps
     ++ ((λ path, (vars, cli.RemoveAll path)) <$> cli.cleanupPaths vars)
     ++ ((λ e, (vars, e)) <$> cli.logTeardown sys),
     match r with
     | inl err => cli.Returns err
     | inr out => out
     end).
Proof.
  unfold cli.RunE, cli.runWithLog, cli.logOutputOf, cli.logSetup,
    cli.logTeardown.
  destruct (cli.os_CreateTemp sys) as [name | err].
  - cbv [cli.defer cli.perform mbind cli.M_bind cli.bind].
    destruct (cli.locateAndServe _ _ _ _ _ _) as [[steps vars] r].
    rewrite cleanup_run. destruct r; simpl; by rewrite <- ?app_assoc.
  - cbv [cli.defer cli.perform mbind cli.M_bind cli.bind].
    destruct (cli.locateAndServe _ _ _ _ _ _) as [[steps vars] r].
    rewrite cleanup_run. destruct r; simpl; by rewrite ?app_nil_r.
Qed.

(** The calls of [RunE], in their order. *)
Lemma RunE_events (flags : cli.Flags) (args : list string) :
  cli.events (cli.RunE ClusterResourcesDir sys flags args).1
  = let '(steps, vars, _) :=
      cli.locateAndServe ClusterResourcesDir sys flags args
        (cli.logOutputOf sys) cli.initial in
    cli.logSetup sys
    ++ cli.GoInterruptHandler :: cli.events steps
    ++ (cli.RemoveAll <$> cli.cleanupPaths vars) ++ cli.logTeardown sys.
Proof.
  rewrite RunE_run.
  destruct (cli.locateAndServe _ _ _ _ _ _) as [[steps vars] r].
  unfold cli.events. simpl.
  rewrite !fmap_app, !fmap_cons, !fmap_app, <- !list_fmap_compose.
  simpl. by rewrite !list_fmap_id.
Qed.



(** What lines 72-145 made is in the variables that [cleanup] reads. *)
Lemma locateAndServe_keeps_what_it_made (flags : cli.Flags)
    (args : list string) (logOutput : cli.LogOutput)
    (steps : list (cli.Vars * cli.Event)) (vars : cli.Vars)
    (r : option error + cli.Outcome) (path : string) :
  cli.locateAndServe ClusterResourcesDir sys flags args logOutput cli.initial
  = (steps, vars, r) →
  (cli.MkdirTemp ∈ cli.events steps ∧ cli.os_MkdirTemp sys = inl path)
  ∨ (∃ url token,
       cli.DownloadAndExtractBundle url token ∈ cli.events steps
       ∧ cli.downloadAndExtractBundle sys url token = inl path)
  ∨ (∃ clusterData logOutput',
       cli.StartAPIServer clusterData logOutput' ∈ cli.events steps
       ∧ (cli.api_StartAPIServer sys clusterData logOutput').1 = path) →
  cli.kubeConfig vars = path
  ∨ (cli.deleteBundleDir vars = true ∧ cli.bundleDir vars = path).
Proof.
  intros Hrun Hmade. run_cases Hrun; simpl.
  all: destruct Hmade as [[Hin Hmade] | [(url & token & Hin & Hmade)
                                        | (cd & lo & Hin & Hmade)]].
  all: simpl in Hin; in_cases Hin; simplify_eq; same_call; auto.
Qed.

(** X14: the log file, and every non-empty path that os.MkdirTemp, the
    download or the API server made during the run, is removed before the run
    ends, however it ends. *)
Theorem RunE_removes_what_it_made (flags : cli.Flags) (args : list string)
    (path : string) :
  let events := cli.events (cli.RunE ClusterResourcesDir sys flags args).1 in
  cli.os_CreateTemp sys = inl path
  ∨ path ≠ ""
    ∧ (cli.MkdirTemp ∈ events ∧ cli.os_MkdirTemp sys = inl path
       ∨ (∃ url token,
            cli.DownloadAndExtractBundle url token ∈ events
            ∧ cli.downloadAndExtractBundle sys url token = inl path)
       ∨ (∃ clusterData logOutput,
            cli.StartAPIServer clusterData logOutput ∈ events
            ∧ (cli.api_StartAPIServer sys clusterData logOutput).1 = path)) →
  cli.RemoveAll path ∈ events.
Proof.
  cbv zeta. rewrite RunE_events.
  destruct (cli.locateAndServe _ _ _ _ _ _) as [[steps vars] r] eqn:Hrun.
  intros [Hlog | [Hne Hmade]].
  - rewrite elem_of_app, elem_of_cons, !elem_of_app. do 4 right.
    unfold cli.logTeardown. rewrite Hlog. find_event.
  - assert (cli.kubeConfig vars = path
            ∨ (cli.deleteBundleDir vars = true ∧ cli.bundleDir vars = path))
      as Hvars.
    { apply (locateAndServe_keeps_what_it_made _ _ _ _ _ _ _ Hrun).
      destruct Hmade as [[Hin Hmade] | [(url & token & Hin & Hmade)
                                       | (cd & lo & Hin & Hmade)]].
      - body_event Hin. auto.
      - body_event Hin. eauto 6.
      - body_event Hin. eauto 6. }
    rewrite elem_of_app, elem_of_cons, !elem_of_app. do 3 right. left.
    apply list_elem_of_fmap_2. unfold cli.cleanupPaths.
    destruct Hvars as [<- | [-> <-]]; apply elem_of_app; [left | right].
    + rewrite bool_decide_eq_true_2 by done. find_event.
    + rewrite bool_decide_eq_true_2 by done. find_event.
Qed.

(** X15: a run that returns no error had a bundle location, and waited for a
    shell that ended without error. *)
Theorem RunE_success_ran_shell (flags : cli.Flags) (args : list string) :
  (cli.RunE ClusterResourcesDir sys flags args).2 = cli.Returns None →
  cli.Wait ∈ cli.events (cli.RunE ClusterResourcesDir sys flags args).1
  ∧ cli.shellExec_Wait sys = None
  ∧ cli.bundleLocationOf flags args ≠ "".
Proof.
  rewrite RunE_events, RunE_run.
  destruct (cli.locateAndServe _ _ _ _ _ _) as [[steps vars] r] eqn:Hrun.
  simpl. intros Hret.
  enough (cli.Wait ∈ cli.events steps ∧ cli.shellExec_Wait sys = None
          ∧ cli.bundleLocationOf flags args ≠ "") as (? & ? & ?).
  { split_and!; try done.
    rewrite elem_of_app, elem_of_cons, !elem_of_app. auto. }
  run_cases Hrun; try discriminate Hret; decide_hyps.
  all: split_and!; [ simpl; find_event | congruence | done ].
Qed.


(** The bundle is read only at the location, and downloaded only with a
    token. *)
Lemma locateAndServe_bundle_calls (flags : cli.Flags) (args : list string)
    (logOutput : cli.LogOutput) (steps : list (cli.Vars * cli.Event))
    (vars : cli.Vars) (r : option error + cli.Outcome) :
  cli.locateAndServe ClusterResourcesDir sys flags args logOutput cli.initial
  = (steps, vars, r) →
  let location := cli.bundleLocationOf flags args in
  (∀ url token,
     cli.DownloadAndExtractBundle url token ∈ cli.events steps →
     url = location ∧ String.prefix "http" location = true
     ∧ token = cli.token flags ∧ token ≠ "")
  ∧ (∀ path,
       cli.Stat path ∈ cli.events steps →
       path = location ∧ location ≠ ""
       ∧ String.prefix "http" location = false)
  ∧ (∀ archive dir,
       cli.ExtractBundle archive dir ∈ cli.events steps →
       archive = location ∧ cli.os_Stat sys location = inl false
       ∧ cli.os_MkdirTemp sys = inl dir).
Proof.
  intros Hrun. run_cases Hrun; decide_hyps; simpl; split_and!.
  all: intros ? ? Hin || intros ? Hin.
  all: in_cases Hin; by split_and!.
Qed.

(** X16: the bundle is downloaded only from the location, when it starts with
    http, and with the non-empty token; it is looked up on disk only at a
    location that does not start with http; and it is extracted only from the
    location, when that is not a directory, into the directory os.MkdirTemp
    made. *)
Theorem RunE_bundle_calls (flags : cli.Flags) (args : list string) :
  let location := cli.bundleLocationOf flags args in
  let events := cli.events (cli.RunE ClusterResourcesDir sys flags args).1 in
  (∀ url token,
     cli.DownloadAndExtractBundle url token ∈ events →
     url = location ∧ String.prefix "http" location = true
     ∧ token = cli.token flags ∧ token ≠ "")
  ∧ (∀ path,
       cli.Stat path ∈ events →
       path = location ∧ location ≠ ""
       ∧ String.prefix "http" location = false)
  ∧ (∀ archive dir,
       cli.ExtractBundle archive dir ∈ events →
       archive = location ∧ cli.os_Stat sys location = inl false
       ∧ cli.os_MkdirTemp sys = inl dir).
Proof.
  cbv zeta. rewrite RunE_events.
  destruct (cli.locateAndServe _ _ _ _ _ _) as [[steps vars] r] eqn:Hrun.
  destruct (locateAndServe_bundle_calls _ _ _ _ _ _ Hrun)
    as (Hdownload & Hstat & Hextract).
  split_and!.
  - intros url token Hin. body_event Hin. by apply Hdownload.
  - intros path Hin. body_event Hin. by apply Hstat.
  - intros archive dir Hin. body_event Hin. by apply Hextract.
Qed.

(** The API server and the text that sets the shell up, in lines 72-145. *)
Lemma locateAndServe_server_and_setup (flags : cli.Flags)
    (args : list string) (logOutput : cli.LogOutput)
    (steps : list (cli.Vars * cli.Event)) (vars : cli.Vars)
    (r : option error + cli.Outcome) :
  cli.locateAndServe ClusterResourcesDir sys flags args logOutput cli.initial
  = (steps, vars, r) →
  (∀ clusterData logOutput',
     cli.StartAPIServer clusterData logOutput' ∈ cli.events steps →
     ClusterResourcesDir clusterData ≠ "" ∧ logOutput' = logOutput
     ∧ ∃ dir, cli.FindClusterData dir ∈ cli.events steps
              ∧ cli.sbctl_FindClusterData sys dir = inl clusterData)
  ∧ (∀ text,
       cli.WriteString text ∈ cli.events steps →
       ∃ dir clusterData cmds,
         cli.sbctl_FindClusterData sys dir = inl clusterData
         ∧ cmds
           = (if bool_decide (ClusterResourcesDir clusterData = "")
              then [ "cd " +:+ dir ]
              else ("export KUBECONFIG="
                    +:+ (cli.api_StartAPIServer sys clusterData logOutput).1)
                   :: (if cli.cd_bundle flags then [ "cd " +:+ dir ]
                       else []))
         ∧ text = String.concat cli.LF cmds +:+ cli.LF
         ∧ cli.CopyN_Discard (2 * String.length text) ∈ cli.events steps).
Proof.
  intros Hrun. run_cases Hrun; simpl; split_and!.
  all: intros ? ? Hin || intros ? Hin.
  all: in_cases Hin.
  all: try (decide_hyps; split_and!; [ done | done | ];
            eexists; split; [ find_event | done ]).
  all: eexists _, _, _; split; [ eassumption | ].
  all: match goal with H : bool_decide _ = _ |- _ => rewrite H end.
  all: same_call.
  all: split_and!; [ reflexivity | reflexivity | find_event ].
Qed.

(** X17: the API server is started only on cluster data with cluster
    resources, found in the bundle directory, and with the log output of the
    run; the text written to the shell is the commands joined by line feeds
    with a line feed after them (cd to the bundle when there are no cluster
    resources, else the export of KUBECONFIG, then cd under cd-bundle), and
    twice its length is read back and discarded. *)
Theorem RunE_server_and_setup (flags : cli.Flags) (args : list string) :
  let events := cli.events (cli.RunE ClusterResourcesDir sys flags args).1 in
  (∀ clusterData logOutput,
     cli.StartAPIServer clusterData logOutput ∈ events →
     ClusterResourcesDir clusterData ≠ ""
     ∧ logOutput = cli.logOutputOf sys
     ∧ ∃ dir, cli.FindClusterData dir ∈ events
              ∧ cli.sbctl_FindClusterData sys dir = inl clusterData)
  ∧ (∀ text,
       cli.WriteString text ∈ events →
       ∃ dir clusterData cmds,
         cli.sbctl_FindClusterData sys dir = inl clusterData
         ∧ cmds
           = (if bool_decide (ClusterResourcesDir clusterData = "")
              then [ "cd " +:+ dir ]
              else ("export KUBECONFIG="
                    +:+ (cli.api_StartAPIServer sys clusterData
                           (cli.logOutputOf sys)).1)
                   :: (if cli.cd_bundle flags then [ "cd " +:+ dir ]
                       else []))
         ∧ text = String.concat cli.LF cmds +:+ cli.LF
         ∧ cli.CopyN_Discard (2 * String.length text) ∈ events).
Proof.
  cbv zeta. rewrite RunE_events.
  destruct (cli.locateAndServe _ _ _ _ _ _) as [[steps vars] r] eqn:Hrun.
  destruct (locateAndServe_server_and_setup _ _ _ _ _ _ Hrun)
    as (Hserver & Hsetup).
  assert (∀ e, e ∈ cli.events steps →
               e ∈ cli.logSetup sys
                   ++ cli.GoInterruptHandler :: cli.events steps
                   ++ (cli.RemoveAll <$> cli.cleanupPaths vars)
                   ++ cli.logTeardown sys) as Hbody.
  { intros e He. rewrite elem_of_app, elem_of_cons, !elem_of_app. auto. }
  split.
  - intros clusterData logOutput Hin. body_event Hin.
    destruct (Hserver _ _ Hin) as (? & ? & dir & ? & ?).
    split_and!; try done. exists dir. auto.
  - intros text Hin. body_event Hin.
    destruct (Hsetup _ Hin) as (dir & clusterData & cmds & ? & ? & ? & ?).
    exists dir, clusterData, cmds. split_and!; auto.
Qed.

End RunESteps.

Section Interrupt.

Context {ClusterData : Type} (ClusterResourcesDir : ClusterData → string).
Variable sys : @cli.System ClusterData.





(** X19: for a location on disk that is not a directory, the run calls
    os.MkdirTemp with deleteBundleDir set and bundleDir still the location:
    [cleanup] on these variables removes the archive itself. *)
Theorem RunE_cleanup_during_MkdirTemp (flags : cli.Flags)
    (args : list string) :
  let location := cli.bundleLocationOf flags args in
  location ≠ "" →
  String.prefix "http" location = false →
  cli.os_Stat sys location = inl false →
  ∃ vars,
    (vars, cli.MkdirTemp) ∈ (cli.RunE ClusterResourcesDir sys flags args).1
    ∧ cli.cleanupPaths vars = [ location ].
Proof.
  cbv zeta. intros Hne Hhttp Hstat.
  exists {| cli.kubeConfig := "";
            cli.bundleDir := cli.bundleLocationOf flags args;
            cli.deleteBundleDir := true |}.
  split.
  - rewrite RunE_run.
    destruct (cli.locateAndServe _ _ _ _ _ _) as [[steps vars'] r] eqn:Hrun.
    simpl. rewrite elem_of_app, elem_of_cons, !elem_of_app.
    right. right. left.
    run_cases Hrun; decide_hyps; try done; try congruence.
    all: find_event.
  - unfold cli.cleanupPaths. simpl.
    by rewrite bool_decide_eq_true_2.
Qed.

End Interrupt.

(** ** The shell command on the sample machine *)

Lemma startShellAndWait_restores_witness :
  cli.NotifyResize ∈ (cli.startShell sampleSystem [ "cd bundle" ]).1
  ∧ last (cli.startShell sampleSystem [ "cd bundle" ]).1
    = Some cli.StopResize
  ∧ cli.Term_Restore ∈ (cli.startShell sampleSystem [ "cd bundle" ]).1.
Proof.
  destruct (startShellAndWait_restores sampleSystem [ "cd bundle" ])
    as (_ & Hstop & Hrestore & _).
  assert (cli.NotifyResize ∈ (cli.startShell sampleSystem [ "cd bundle" ]).1)
    as Hnotify by in_computed.
  split_and!; [ exact Hnotify | exact (Hstop Hnotify) | ].
  apply Hrestore; [ in_computed | reflexivity ].
Defined.


Lemma RunE_removes_what_it_made_witness :
  cli.MkdirTemp ∈ cli.events (sampleRun "bundle.tar.gz").1
  ∧ cli.RemoveAll "/tmp/sbctl-1" ∈ cli.events (sampleRun "bundle.tar.gz").1
  ∧ cli.RemoveAll "/tmp/local-kubeconfig-1"
      ∈ cli.events (sampleRun "bundle.tar.gz").1.
Proof.
  assert (cli.MkdirTemp ∈ cli.events (sampleRun "bundle.tar.gz").1) as Hin
    by in_computed.
  split_and!; [ exact Hin | | ].
  - apply (RunE_removes_what_it_made (λ clusterData, clusterData)
             sampleSystem sampleFlags [ "bundle.tar.gz" ] "/tmp/sbctl-1").
    right. split; [ done | ]. left. split; [ exact Hin | reflexivity ].
  - apply (RunE_removes_what_it_made (λ clusterData, clusterData)
             sampleSystem sampleFlags [ "bundle.tar.gz" ]
             "/tmp/local-kubeconfig-1").
    right. split; [ done | ]. right. right.
    exists "/tmp/sbctl-1/cluster-resources",
      (cli.LogFile "/tmp/sbctl-server-1.log").
    split; [ in_computed | reflexivity ].
Defined.

Lemma RunE_success_ran_shell_witness :
  (sampleRun "bundle").2 = cli.Returns None
  ∧ cli.Wait ∈ cli.events (sampleRun "bundle").1.
Proof.
  assert ((sampleRun "bundle").2 = cli.Returns None) as Hret
    by (vm_compute; reflexivity).
  split; [ exact Hret | ].
  exact (proj1 (RunE_success_ran_shell _ _ _ _ Hret)).
Defined.

Lemma RunE_bundle_calls_witness :
  cli.DownloadAndExtractBundle "https://example.com/bundle.tar.gz" "secret"
    ∈ cli.events (sampleRun "https://example.com/bundle.tar.gz").1
  ∧ cli.token sampleFlags ≠ ""
  ∧ cli.Stat "bundle.tar.gz" ∈ cli.events (sampleRun "bundle.tar.gz").1
  ∧ cli.ExtractBundle "bundle.tar.gz" "/tmp/sbctl-1"
      ∈ cli.events (sampleRun "bundle.tar.gz").1
  ∧ cli.os_MkdirTemp sampleSystem = inl "/tmp/sbctl-1".
Proof.
  destruct (RunE_bundle_calls (λ clusterData, clusterData) sampleSystem
              sampleFlags [ "https://example.com/bundle.tar.gz" ])
    as (Hdownload & _ & _).
  destruct (RunE_bundle_calls (λ clusterData, clusterData) sampleSystem
              sampleFlags [ "bundle.tar.gz" ])
    as (_ & Hstat & Hextract).
  assert (cli.DownloadAndExtractBundle "https://example.com/bundle.tar.gz"
            "secret"
            ∈ cli.events (sampleRun "https://example.com/bundle.tar.gz").1)
    as Hin by in_computed.
  assert (cli.Stat "bundle.tar.gz"
            ∈ cli.events (sampleRun "bundle.tar.gz").1) as Hin' by in_computed.
  assert (cli.ExtractBundle "bundle.tar.gz" "/tmp/sbctl-1"
            ∈ cli.events (sampleRun "bundle.tar.gz").1) as Hin''
    by in_computed.
  destruct (Hdownload _ _ Hin) as (_ & _ & Htoken & Hne).
  destruct (Hstat _ Hin') as (_ & _ & _).
  destruct (Hextract _ _ Hin'') as (_ & _ & Hdir).
  split_and!; assumption.
Defined.

Lemma RunE_server_and_setup_witness :
  cli.StartAPIServer "bundle/cluster-resources"
    (cli.LogFile "/tmp/sbctl-server-1.log")
    ∈ cli.events (sampleRun "bundle").1
  ∧ cli.WriteString
      ("export KUBECONFIG=/tmp/local-kubeconfig-1" +:+ cli.LF
       +:+ "cd bundle" +:+ cli.LF)
      ∈ cli.events (sampleRun "bundle").1
  ∧ cli.CopyN_Discard 104 ∈ cli.events (sampleRun "bundle").1.
Proof.
  destruct (RunE_server_and_setup (λ clusterData, clusterData) sampleSystem
              sampleFlags [ "bundle" ]) as (Hserver & Hsetup).
  assert (cli.StartAPIServer "bundle/cluster-resources"
            (cli.LogFile "/tmp/sbctl-server-1.log")
            ∈ cli.events (sampleRun "bundle").1) as Hin by in_computed.
  assert (cli.WriteString
            ("export KUBECONFIG=/tmp/local-kubeconfig-1" +:+ cli.LF
             +:+ "cd bundle" +:+ cli.LF)
            ∈ cli.events (sampleRun "bundle").1) as Hin' by in_computed.
  destruct (Hserver _ _ Hin) as (_ & _ & _).
  destruct (Hsetup _ Hin') as (dir & clusterData & cmds & _ & _ & _ & Hcopy).
  split_and!; [ exact Hin | exact Hin' | exact Hcopy ].
Defined.


Lemma RunE_cleanup_during_MkdirTemp_witness :
  ∃ vars,
    (vars, cli.MkdirTemp) ∈ (sampleRun "bundle.tar.gz").1
    ∧ cli.cleanupPaths vars = [ "bundle.tar.gz" ].
Proof.
  apply (RunE_cleanup_during_MkdirTemp (λ clusterData, clusterData)
           sampleSystem sampleFlags [ "bundle.tar.gz" ]).
  - done.
  - reflexivity.
  - reflexivity.
Defined.
